(** * Fraud-risk scoring engine: a shallow embedding and its checked properties

    The development follows three Python modules of the repository:

    - [fraud-detection-agent.py]  (the scorer; module [Agent] below),
    - [fraud_detection_agent.py]  (the importable mirror; module [Mirror]),
    - [train_fraud_model.py]      (the offline trainer; module [Trainer]).

    Python values are a small inductive type, Python floats are IEEE binary64
    ([PrimFloat.float]), Python ints are [Z], exceptions are an explicit
    result type.  Builtins whose semantics lives in C (decimal parsing,
    [repr] of floats, float floor division, [math.exp]) and the scikit-learn
    estimators are interfaces whose implementations are arguments. *)

From Stdlib Require Import ZArith String Ascii List Bool Lia.
From Stdlib Require Import Floats DecimalString.
From stdpp Require Import gmap strings.

Import ListNotations.
Set Warnings "-inexact-float,-register-all".
Local Open Scope string_scope.
Local Open Scope Z_scope.

(** ** Python runtime model *)

Module Py.

(** The [Exception] subclasses the modelled code can meet. *)
Inductive exn : Type :=
| TypeError
| ValueError
| OverflowError
| IndexError
| AttributeError
| KeyError
| NotFittedError
| ZeroDivisionError
| RecursionError
| IOError.

Inductive res (A : Type) : Type :=
| Ok (a : A)
| Raise (e : exn).
Arguments Ok {A} a.
Arguments Raise {A} e.

Definition bind {A B : Type} (m : res A) (k : A -> res B) : res B :=
  match m with
  | Ok a => k a
  | Raise e => Raise e
  end.

(** [try: m  except Exception: h] *)
Definition try_except {A : Type} (m : res A) (h : res A) : res A :=
  match m with
  | Ok a => Ok a
  | Raise _ => h
  end.

(** How a script ends: it returns, an exception escapes, or it calls
    [raise SystemExit(msg)], which no [except Exception] catches. *)
Inductive outcome (A : Type) : Type :=
| Returned (a : A)
| Uncaught (e : exn)
| Exited (msg : string).
Arguments Returned {A} a.
Arguments Uncaught {A} e.
Arguments Exited {A} msg.

Definition run {A B : Type} (m : res A) (k : A -> outcome B) : outcome B :=
  match m with
  | Ok a => k a
  | Raise e => Uncaught e
  end.

Definition of_option {A : Type} (e : exn) (o : option A) : res A :=
  match o with
  | Some a => Ok a
  | None => Raise e
  end.

(** Values a transaction record can hold (what [json.loads] yields, and
    the scalars of a data-frame row).  A [str] is a Rocq string, one
    character per code point (code points below 256). *)
Inductive pyval : Type :=
| PNone
| PBool (b : bool)
| PInt (n : Z)
| PFloat (f : float)
| PStr (s : string)
| PList (l : list pyval)
| PDict (d : list (string * pyval)).

(** Builtins implemented outside Python. *)
Record Builtins : Type := {
  (** [float(s)] on a [str]; [None] is [ValueError]. *)
  float_of_str : string -> option float;
  (** [int(s)] on a [str]; [None] is [ValueError]. *)
  int_of_str : string -> option Z;
  (** [str(x)] on a float, a list or a dict.  A container has no text when
      one of its elements has none ([ValueError] for an integer too long to
      print) or when it nests too deep ([RecursionError]). *)
  str_other : pyval -> res string;
  (** [x // y] on two floats, [y] not zero. *)
  float_floordiv : float -> float -> float;
  (** [math.exp(x)]; [None] is [OverflowError]. *)
  math_exp : float -> option float
}.

(** Truth value testing. [nan] is true, both zeros are false. *)
Definition truthy (v : pyval) : bool :=
  match v with
  | PNone => false
  | PBool b => b
  | PInt n => negb (n =? 0)
  | PFloat f => negb (f =? 0)%float
  | PStr s => negb (String.eqb s "")
  | PList l => match l with [] => false | _ => true end
  | PDict d => match d with [] => false | _ => true end
  end.

(** [a or b] *)
Definition or_else (a b : pyval) : pyval := if truthy a then a else b.

(** The nearest binary64 to an integer (ties to even), possibly infinite. *)
Definition Z_to_float (n : Z) : float :=
  SF2Prim (binary_normalize prec emax n 0 false).

(** [float(n)] on an [int]: [OverflowError] when [n] is out of range. *)
Definition float_of_int (n : Z) : res float :=
  match binary_normalize prec emax n 0 false with
  | S754_infinity _ => Raise OverflowError
  | sf => Ok (SF2Prim sf)
  end.

(** [int(f)] on a float: truncation toward zero. *)
Definition int_of_float (f : float) : res Z :=
  match Prim2SF f with
  | S754_zero _ => Ok 0
  | S754_finite s m e =>
      let a := Z.shiftl (Z.pos m) e in
      Ok (if s then - a else a)
  | S754_infinity _ => Raise OverflowError
  | S754_nan => Raise ValueError
  end.

(** [float(x)] *)
Definition float_ (B : Builtins) (v : pyval) : res float :=
  match v with
  | PBool b => Ok (if b then 1 else 0)%float
  | PInt n => float_of_int n
  | PFloat f => Ok f
  | PStr s => of_option ValueError (float_of_str B s)
  | PNone | PList _ | PDict _ => Raise TypeError
  end.

(** [int(x)] *)
Definition int_ (B : Builtins) (v : pyval) : res Z :=
  match v with
  | PBool b => Ok (if b then 1 else 0)
  | PInt n => Ok n
  | PFloat f => int_of_float f
  | PStr s => of_option ValueError (int_of_str B s)
  | PNone | PList _ | PDict _ => Raise TypeError
  end.

(** The default of [sys.set_int_max_str_digits]: an [int] of more decimal
    digits does not convert to text. *)
Definition int_max_str_digits : Z := 4300.

(** [str(n)] on an [int]: [ValueError] beyond the digit limit. *)
Definition int_to_str (n : Z) : res string :=
  if Z.abs n <? 10 ^ int_max_str_digits
  then Ok (NilEmpty.string_of_int (Z.to_int n))
  else Raise ValueError.

(** [str(x)] *)
Definition str_ (B : Builtins) (v : pyval) : res string :=
  match v with
  | PNone => Ok "None"
  | PBool b => Ok (if b then "True" else "False")
  | PInt n => int_to_str n
  | PStr s => Ok s
  | PFloat _ | PList _ | PDict _ => str_other B v
  end.

(** [len(x)] *)
Definition len (v : pyval) : res nat :=
  match v with
  | PStr s => Ok (String.length s)
  | PList l => Ok (List.length l)
  | PDict d => Ok (List.length d)
  | PNone | PBool _ | PInt _ | PFloat _ => Raise TypeError
  end.

(** [c.lower()] on one character: ASCII and Latin-1 capitals move by 32. *)
Definition lower_char (c : ascii) : ascii :=
  let n := nat_of_ascii c in
  if ((65 <=? n) && (n <=? 90))%nat
     || ((192 <=? n) && (n <=? 222) && negb (n =? 215))%nat
  then ascii_of_nat (n + 32)
  else c.

Fixpoint lower (s : string) : string :=
  match s with
  | EmptyString => EmptyString
  | String c s' => String (lower_char c) (lower s')
  end.

(** [needle in s] on two strings. *)
Fixpoint contains (needle s : string) : bool :=
  String.prefix needle s
  || match s with
     | EmptyString => false
     | String _ s' => contains needle s'
     end.

(** [max(a, b)] and [min(a, b)] on floats: the first argument is kept
    unless the second compares strictly greater (smaller). *)
Definition max (a b : float) : float := if (a <? b)%float then b else a.
Definition min (a b : float) : float := if (b <? a)%float then b else a.

(** [a / b] on floats. *)
Definition truediv (a b : float) : res float :=
  if (b =? 0)%float then Raise ZeroDivisionError else Ok (a / b)%float.

(** [x // 1000] followed by [int(...)]. *)
Definition int_floordiv_1000 (B : Builtins) (v : pyval) : res Z :=
  match v with
  | PBool b => Ok ((if b then 1 else 0) / 1000)
  | PInt n => Ok (n / 1000)
  | PFloat f => int_of_float (float_floordiv B f 1000)
  | PNone | PStr _ | PList _ | PDict _ => Raise TypeError
  end.

End Py.


Import Py.

#[global] Instance res_bind : MBind res := fun A B k m => bind m k.
#[global] Instance res_ret : MRet res := fun A a => Ok a.

(** ** scikit-learn objects, as far as the code under study looks at them *)

Module Sk.

(** A two-dimensional [numpy] array of floats, row by row. *)
Definition matrix : Type := list (list float).

(** A duck-typed estimator: each method may be missing ([hasattr] is
    false, a call raises [AttributeError]) and each call may raise. *)
Record estimator : Type := {
  transform : option (matrix -> res matrix);
  predict_proba : option (matrix -> res matrix);
  score_samples : option (matrix -> res (list float))
}.

Definition call {A R : Type} (method : option (A -> res R)) (a : A) : res R :=
  match method with
  | Some f => f a
  | None => Raise AttributeError
  end.

(** [LogisticRegression(...)] before [fit]: the method exists and raises
    [NotFittedError]. *)
Definition LogisticRegression : estimator :=
  {| transform := None;
     predict_proba := Some (fun _ => Raise NotFittedError);
     score_samples := None |}.

(** [IsolationForest(...)] before [fit], likewise. *)
Definition IsolationForest : estimator :=
  {| transform := None;
     predict_proba := None;
     score_samples := Some (fun _ => Raise NotFittedError) |}.

(** [M[i, j]] *)
Definition index2 (M : matrix) (i j : nat) : res float :=
  row ← of_option IndexError (nth_error M i);
  of_option IndexError (nth_error row j).

(** [v[i]] *)
Definition index1 (v : list float) (i : nat) : res float :=
  of_option IndexError (nth_error v i).

End Sk.

Import Sk.

(** ** [os.path] on POSIX paths *)

Module Paths.

(** [p[:p.rfind("/") + 1]] *)
Fixpoint head_to_last_slash (p : string) : string :=
  match p with
  | EmptyString => EmptyString
  | String c p' =>
      if contains "/" p' then String c (head_to_last_slash p')
      else if Ascii.eqb c "/" then "/"
      else EmptyString
  end.

Definition all_slashes (s : string) : bool :=
  forallb (Ascii.eqb "/") (list_ascii_of_string s).

(** [s.rstrip("/")] *)
Fixpoint rstrip_slash (s : string) : string :=
  match s with
  | EmptyString => EmptyString
  | String c s' =>
      let r := rstrip_slash s' in
      if Ascii.eqb c "/" && String.eqb r "" then EmptyString else String c r
  end.

(** [os.path.dirname(p)] *)
Definition dirname (p : string) : string :=
  let head := head_to_last_slash p in
  if negb (String.eqb head "") && negb (all_slashes head)
  then rstrip_slash head
  else head.

Fixpoint ends_with_slash (s : string) : bool :=
  match s with
  | EmptyString => false
  | String c EmptyString => Ascii.eqb c "/"
  | String _ s' => ends_with_slash s'
  end.

(** [os.path.join(a, b)] *)
Definition join (a b : string) : string :=
  if String.prefix "/" b then b
  else if String.eqb a "" || ends_with_slash a then a ++ b
  else a ++ "/" ++ b.

(** [os.path.basename(p)]: what follows the last slash. *)
Fixpoint basename (p : string) : string :=
  match p with
  | EmptyString => ""
  | String c p' => if contains "/" (String c p') then basename p' else p
  end.

(** A NUL character in a path: the system calls refuse it with
    [ValueError] before the file system is asked. *)
Definition has_nul (p : string) : bool :=
  existsb (Ascii.eqb "000") (list_ascii_of_string p).

(** A path whose text alone says it is a directory: it ends in a slash, or
    its last component is [.] or [..]. *)
Definition names_directory (p : string) : bool :=
  String.eqb (basename p) "" || String.eqb (basename p) "."
  || String.eqb (basename p) "..".

End Paths.

(** ** The model artifact and its store *)

Module Store.

(** The dataclass [FraudModel]; a field holds [None] or an object. *)
Record FraudModel : Type := {
  scaler : option estimator;
  clf : option estimator;
  iso : option estimator
}.

(** What [joblib.load] can return: a dict from strings to artifact
    components, or some other object. *)
Inductive pickle : Type :=
| PkDict (d : gmap string (option estimator))
| PkOther.

Inductive file : Type :=
| Corrupt
| Pickled (o : pickle).

Definition filesystem : Type := gmap string file.

Definition joblib_load (fs : filesystem) (path : string) : res pickle :=
  match fs !! path with
  | None => Raise IOError
  | Some Corrupt => Raise ValueError
  | Some (Pickled o) => Ok o
  end.

(** The constructor call that unpacks [obj] into keyword arguments: the
    keywords must be exactly the three fields. *)
Definition FraudModel_kwargs (obj : pickle) : res FraudModel :=
  match obj with
  | PkOther => Raise TypeError
  | PkDict d =>
      match d !! "scaler", d !! "clf", d !! "iso" with
      | Some s, Some c, Some i =>
          if (size d =? 3)%nat
          then Ok {| scaler := s; clf := c; iso := i |}
          else Raise TypeError
      | _, _, _ => Raise TypeError
      end
  end.

(** [os.makedirs(os.path.dirname(path), exist_ok=True)]: the directory
    part is empty exactly when [path] has no slash, and [makedirs] then
    raises [FileNotFoundError], an [IOError]; a NUL character in the
    directory part is a [ValueError].  The store below holds files by the
    text of their path and knows no directories, owners or links: what else
    can make the file system refuse (a regular file in the way, permissions,
    a full disk) is not modelled, so an answer [Ok] says no more than that
    the text of the path allows the call, and two spellings of one file are
    two keys. *)
Definition makedirs_dirname (path : string) : res unit :=
  if contains "/" path
  then if Paths.has_nul (Paths.dirname path) then Raise ValueError else Ok tt
  else Raise IOError.

(** Opening [path] for writing or appending, as far as the text of the path
    decides: a NUL character is a [ValueError], and a path that names a
    directory is refused with [IsADirectoryError], an [IOError]. *)
Definition open_for_writing (path : string) : res unit :=
  if Paths.has_nul path then Raise ValueError
  else if Paths.names_directory path then Raise IOError
  else Ok tt.

(** [joblib.dump({"scaler": .., "clf": .., "iso": ..}, path)] *)
Definition dump_fields (m : FraudModel) : gmap string (option estimator) :=
  <["scaler" := scaler m]> (<["clf" := clf m]> (<["iso" := iso m]> ∅)).

End Store.

Import Store.

(** ** Helpers shared by the modules *)

Module Util.

(** [d.get(key, default)] on a transaction record. *)
Definition get (tx : gmap string pyval) (key : string) (dflt : pyval) : pyval :=
  default dflt (tx !! key).

Fixpoint insert_sorted (x : string) (l : list string) : list string :=
  match l with
  | [] => [x]
  | y :: l' => if String.leb x y then x :: l else y :: insert_sorted x l'
  end.

(** [sorted(l)] on strings: code-point order. *)
Definition sorted (l : list string) : list string :=
  foldr insert_sorted [] l.

(** A [Dict[str, float]] in insertion order. *)
Definition fdict : Type := list (string * float).

Definition keys (d : fdict) : list string := map fst d.

(** [d[key]] *)
Fixpoint getitem (d : fdict) (key : string) : res float :=
  match d with
  | [] => Raise KeyError
  | (k, v) :: d' => if String.eqb k key then Ok v else getitem d' key
  end.

(** [[d[c] for c in cols]] *)
Fixpoint row_of (d : fdict) (cols : list string) : res (list float) :=
  match cols with
  | [] => Ok []
  | c :: cols' =>
      v ← getitem d c;
      vs ← row_of d cols';
      Ok (v :: vs)
  end.

End Util.

Import Util.

(** ** [fraud-detection-agent.py] *)

Module Agent.

Definition RISK_THRESHOLD : float := 0.7.

Definition _safe_num (B : Builtins) (x : pyval) : res float :=
  try_except (float_ B x) (Ok 0%float).

(** [now] is what [int(time.time() * 1000)] evaluates to. *)
Definition _extract_features (B : Builtins) (now : Z) (tx : gmap string pyval)
  : res fdict :=
  let ts := or_else (get tx "ts" PNone) (PInt now) in
  secs ← int_floordiv_1000 B ts;
  let hour := (secs mod 86400) / 3600 in
  amount ← _safe_num B (get tx "amount" (PInt 0));
  text ← str_ B (get tx "status" (PStr ""));
  let status := lower text in
  let is_retry := (if truthy (get tx "retry" (PBool false)) then 1 else 0)%float in
  n ← len (or_else (get tx "memo" PNone) (PStr ""));
  let memo_len := Z_to_float (Z.of_nat n) in
  let st_success := (if contains "success" status then 1 else 0)%float in
  let st_failed := (if contains "fail" status then 1 else 0)%float in
  let st_queued := (if contains "queue" status then 1 else 0)%float in
  Ok [ ("amount", amount);
       ("hour", Z_to_float hour);
       ("is_retry", is_retry);
       ("memo_len", memo_len);
       ("st_success", st_success);
       ("st_failed", st_failed);
       ("st_queued", st_queued) ].

(** The defaults of [FraudModel.load]: no scaler, a logistic regression
    and an isolation forest, neither fitted. *)
Definition default_model : FraudModel :=
  {| scaler := None;
     clf := Some LogisticRegression;
     iso := Some IsolationForest |}.

(** [FraudModel.load]: whatever goes wrong while reading the file or
    building the dataclass, the defaults are returned. *)
Definition load (fs : filesystem) (path : string) : res FraudModel :=
  try_except (obj ← joblib_load fs path; FraudModel_kwargs obj)
             (Ok default_model).

Definition save (m : FraudModel) (fs : filesystem) (path : string)
  : res filesystem :=
  _ ← makedirs_dirname path;
  _ ← open_for_writing path;
  Ok (<[path := Pickled (PkDict (dump_fields m))]> fs).

(** The agent object: the fields the scoring path reads. *)
Record FraudDetectionAgent : Type := {
  model : FraudModel;
  threshold : float
}.

(** [FraudDetectionAgent.__init__] *)
Definition init (fs : filesystem) (model_path : string) (risk_threshold : float)
  : res FraudDetectionAgent :=
  m ← load fs model_path;
  Ok {| model := m; threshold := risk_threshold |}.

Definition features (B : Builtins) (now : Z) (self : FraudDetectionAgent)
           (tx : gmap string pyval) : res (matrix * list string) :=
  feats ← _extract_features B now tx;
  let cols := sorted (keys feats) in
  row ← row_of feats cols;
  let X := [row] in
  X ← match scaler (model self) with
      | Some sc => call (transform sc) X
      | None => Ok X
      end;
  Ok (X, cols).

(** The classifier step of [score]. *)
Definition classifier_probability (self : FraudDetectionAgent) (X : matrix)
  : res float :=
  match clf (model self) with
  | Some c =>
      match predict_proba c with
      | Some f => try_except (P ← f X; index2 P 0 1) (Ok 0.5%float)
      | None => Ok 0.5%float
      end
  | None => Ok 0.5%float
  end.

(** The anomaly step of [score], from the probability [p] so far. *)
Definition anomaly_blend (B : Builtins) (self : FraudDetectionAgent)
           (X : matrix) (p : float) : res float :=
  match iso (model self) with
  | Some d =>
      try_except
        (v ← call (score_samples d) X;
         raw ← index1 v 0;
         let s := (- raw)%float in
         e ← of_option OverflowError (math_exp B (- s)%float);
         s ← truediv 1 (1 + e);
         Ok (0.5 * p + 0.5 * s)%float)
        (Ok p)
  | None => Ok p
  end.

Definition score (B : Builtins) (now : Z) (self : FraudDetectionAgent)
           (tx : gmap string pyval) : res float :=
  '(X, _) ← features B now self tx;
  p ← classifier_probability self X;
  p ← anomaly_blend B self X p;
  Ok (min (max p 0) 1).

Definition classify (self : FraudDetectionAgent) (p : float) : string :=
  if (max (threshold self) 0.9 <=? p)%float then "critical"
  else if (threshold self <=? p)%float then "high"
  else if (0.4 <=? p)%float then "medium"
  else "low".

(** What [alert] sends to the alert sink and logs. *)
Record alert_message : Type := {
  alert_tx : gmap string pyval;
  alert_risk : float;
  alert_level : string
}.

(** [alert]: the post is best effort, the log record is always written;
    the outbox collects the messages. *)
Definition alert (outbox : list alert_message) (tx : gmap string pyval)
           (p : float) (level : string) : list alert_message :=
  outbox ++ [ {| alert_tx := tx; alert_risk := p; alert_level := level |} ].

(** The dict [{"risk": p, "level": level}]. *)
Record assessment : Type := {
  risk : float;
  level : string
}.

Definition process_tx (B : Builtins) (now : Z) (self : FraudDetectionAgent)
           (outbox : list alert_message) (tx : gmap string pyval)
  : res (assessment * list alert_message) :=
  p ← score B now self tx;
  let level := classify self p in
  let result := {| risk := p; level := level |} in
  let outbox :=
    if String.eqb level "high" || String.eqb level "critical"
    then alert outbox tx p level
    else outbox in
  Ok (result, outbox).

End Agent.

(** ** [fraud_detection_agent.py] *)

Module Mirror.

Definition _safe_num (B : Builtins) (x : pyval) : res float :=
  try_except (float_ B x) (Ok 0%float).

(** [x == True], [x == 1]: numeric equality with one. *)
Definition eq_one (x : pyval) : bool :=
  match x with
  | PBool b => b
  | PInt n => n =? 1
  | PFloat f => (f =? 1)%float
  | PNone | PStr _ | PList _ | PDict _ => false
  end.

Definition eq_str (x : pyval) (s : string) : bool :=
  match x with
  | PStr t => String.eqb t s
  | _ => false
  end.

(** [x in (True, 1, "1", "true", "True")] *)
Definition in_retry_tuple (x : pyval) : bool :=
  eq_one x || eq_one x || eq_str x "1" || eq_str x "true" || eq_str x "True".

Definition _extract_features (B : Builtins) (now : Z) (tx : gmap string pyval)
  : res fdict :=
  let ts := or_else (get tx "ts" PNone) (PInt now) in
  secs ← int_floordiv_1000 B ts;
  let hour := (secs mod 86400) / 3600 in
  amount ← _safe_num B (get tx "amount" (PInt 0));
  text ← str_ B (get tx "status" (PStr ""));
  let status := lower text in
  let is_retry :=
    (if in_retry_tuple (get tx "retry" (PBool false)) then 1 else 0)%float in
  n ← len (or_else (get tx "memo" PNone) (PStr ""));
  let memo_len := Z_to_float (Z.of_nat n) in
  let st_success := (if contains "success" status then 1 else 0)%float in
  let st_failed := (if contains "fail" status then 1 else 0)%float in
  let st_queued := (if contains "queue" status then 1 else 0)%float in
  Ok [ ("amount", amount);
       ("hour", Z_to_float hour);
       ("is_retry", is_retry);
       ("memo_len", memo_len);
       ("st_success", st_success);
       ("st_failed", st_failed);
       ("st_queued", st_queued) ].

(** The mirror's defaults, the same three objects. *)
Definition default_model : FraudModel :=
  {| scaler := None;
     clf := Some LogisticRegression;
     iso := Some IsolationForest |}.

Definition load (fs : filesystem) (path : string) : res FraudModel :=
  try_except (obj ← joblib_load fs path; FraudModel_kwargs obj)
             (Ok default_model).

Definition save (m : FraudModel) (fs : filesystem) (path : string)
  : res filesystem :=
  _ ← makedirs_dirname path;
  _ ← open_for_writing path;
  Ok (<[path := Pickled (PkDict (dump_fields m))]> fs).

End Mirror.

(** ** [train_fraud_model.py] *)

Module Trainer.

(** A data-frame row as [row.to_dict()] gives it. *)
Definition row : Type := gmap string pyval.

(** pandas and scikit-learn, as far as the trainer calls them. *)
Record Library : Type := {
  (** [load_dataset(path)]: the rows of the renamed data frame. *)
  load_dataset : string -> res (list row);
  (** [train_test_split(X, y, test_size=0.25, random_state=42, stratify=y)] *)
  train_test_split : matrix -> list Z -> res (matrix * matrix * list Z * list Z);
  (** [StandardScaler().fit_transform(X)]: the fitted scaler and [Xs]. *)
  StandardScaler_fit_transform : matrix -> res (estimator * matrix);
  (** [LogisticRegression(max_iter=1000, class_weight="balanced").fit(Xs, y)] *)
  LogisticRegression_fit : matrix -> list Z -> res estimator;
  (** [IsolationForest(n_estimators=100, ...).fit(Xs)] *)
  IsolationForest_fit : matrix -> res estimator;
  (** [classification_report(y, preds, output_dict=True)] *)
  classification_report : list Z -> list Z -> res pyval;
  (** [roc_auc_score(y, proba)] *)
  roc_auc_score : list Z -> list float -> res float
}.

(** The loop of [featurize]; [clock i] is the time read while row [i] is
    processed. *)
Fixpoint featurize_rows (B : Builtins) (clock : nat -> Z) (i : nat)
         (df : list row) : res (list fdict * list Z) :=
  match df with
  | [] => Ok ([], [])
  | r :: df' =>
      f ← Mirror._extract_features B (clock i) r;
      label ← int_ B (get r "label" (PInt 0));
      '(feats, labels) ← featurize_rows B clock (S i) df';
      Ok (f :: feats, label :: labels)
  end.

Fixpoint rows_of (feats : list fdict) (cols : list string) : res matrix :=
  match feats with
  | [] => Ok []
  | fi :: feats' =>
      r ← row_of fi cols;
      rs ← rows_of feats' cols;
      Ok (r :: rs)
  end.

Definition featurize (B : Builtins) (clock : nat -> Z) (df : list row)
  : res (matrix * list Z * list string) :=
  '(feats, labels) ← featurize_rows B clock 0 df;
  let cols := match feats with
              | f0 :: _ => sorted (keys f0)
              | [] => []
              end in
  X ← rows_of feats cols;
  Ok (X, labels, cols).

Definition train (L : Library) (X : matrix) (y : list Z) : res FraudModel :=
  '(scaler, Xs) ← StandardScaler_fit_transform L X;
  clf ← LogisticRegression_fit L Xs y;
  iso ← IsolationForest_fit L Xs;
  Ok {| scaler := Some scaler; clf := Some clf; iso := Some iso |}.

(** [P[:, 1]] *)
Fixpoint column1 (P : matrix) : res (list float) :=
  match P with
  | [] => Ok []
  | r :: P' =>
      v ← of_option IndexError (nth_error r 1);
      vs ← column1 P';
      Ok (v :: vs)
  end.

(** The dict [{"auc": auc, "report": report}]. *)
Record metrics : Type := {
  auc : float;
  report : pyval
}.

(** The first two steps of [evaluate]. *)
Definition evaluate_scaled (model : FraudModel) (X : matrix) : res matrix :=
  match scaler model with
  | Some sc => call (transform sc) X
  | None => Ok X
  end.

Definition evaluate_proba (model : FraudModel) (Xs : matrix) (y : list Z)
  : res (list float) :=
  match clf model with
  | Some c =>
      match predict_proba c with
      | Some f => P ← f Xs; column1 P
      | None => Ok (map (fun _ => 0.5%float) y)
      end
  | None => Ok (map (fun _ => 0.5%float) y)
  end.

Definition evaluate (L : Library) (model : FraudModel) (X : matrix) (y : list Z)
  : res metrics :=
  Xs ← evaluate_scaled model X;
  proba ← evaluate_proba model Xs y;
  let preds := map (fun p => if (0.5 <=? p)%float then 1 else 0) proba in
  report ← classification_report L y preds;
  auc ← (if (1 <? length (remove_dups y))%nat
         then roc_auc_score L y proba
         else Ok nan);
  Ok {| auc := auc; report := report |}.

(** [main]: [data] and [out] are the two command-line arguments; the
    result is the file system after the run and what is printed. *)
Definition main (B : Builtins) (L : Library) (clock : nat -> Z)
           (fs : filesystem) (data out : string)
  : outcome (filesystem * (metrics * string)) :=
  run (load_dataset L data) (fun df =>
  run (featurize B clock df) (fun '(X, y, cols) =>
  if (length X =? 0)%nat then Exited "No data rows"
  else
    run (train_test_split L X y) (fun '(X_tr, X_te, y_tr, y_te) =>
    run (train L X_tr y_tr) (fun model =>
    run (evaluate L model X_te y_te) (fun metrics =>
    run (makedirs_dirname out) (fun _ =>
    run (Mirror.save model fs out) (fun fs =>
    Returned (fs, (metrics, out))))))))).

End Trainer.

(** ** The order of binary64, through its specification *)

Module FloatOrder.

(** A value that is not NaN is ranked by a triple of integers compared
    lexicographically: sign class, exponent, mantissa. *)
Definition rank (x : spec_float) : Z * Z * Z :=
  match x with
  | S754_nan => (0, 0, 0)
  | S754_zero _ => (0, 0, 0)
  | S754_infinity s => (if s then -2 else 2, 0, 0)
  | S754_finite s m e =>
      if s then (-1, - e, - Z.pos m) else (1, e, Z.pos m)
  end.

Definition lt3 (a b : Z * Z * Z) : Prop :=
  a.1.1 < b.1.1
  \/ (a.1.1 = b.1.1 /\ (a.1.2 < b.1.2 \/ (a.1.2 = b.1.2 /\ a.2 < b.2))).

Definition le3 (a b : Z * Z * Z) : Prop :=
  a.1.1 < b.1.1
  \/ (a.1.1 = b.1.1 /\ (a.1.2 < b.1.2 \/ (a.1.2 = b.1.2 /\ a.2 <= b.2))).

Definition number (x : spec_float) : Prop := x <> S754_nan.

Definition is_number (x : float) : Prop := is_nan x = false.

(** [0 <= r <= 1] on floats. *)
Definition in_unit_interval (r : float) : Prop :=
  (0 <=? r)%float = true /\ (r <=? 1)%float = true.

End FloatOrder.

Import FloatOrder.

(** ** The statements under study, in the words of the specification *)

Module Spec.

(** The key order the specification lists for a feature vector. *)
Definition listed_order : list string :=
  ["amount"; "hour"; "is_retry"; "memo_len";
   "st_success"; "st_failed"; "st_queued"].

(** The same keys in code-point order. *)
Definition sorted_order : list string :=
  ["amount"; "hour"; "is_retry"; "memo_len";
   "st_failed"; "st_queued"; "st_success"].

(** The row the specification describes: the values of a feature vector
    laid out in the listed order. *)
Definition listed_row (feats : fdict) : res (list float) :=
  row_of feats listed_order.

(** Clamping to the unit interval. *)
Definition clamp01 (v : float) : float :=
  if (v <? 0)%float then 0%float
  else if (1 <? v)%float then 1%float
  else v.

(** What the classifier yields for [X]: the entry [[0, 1]] of its
    probability matrix, when it has the method and nothing fails. *)
Definition classifier_output (self : Agent.FraudDetectionAgent) (X : matrix)
  : option float :=
  c ← clf (Agent.model self);
  f ← predict_proba c;
  match f X with
  | Ok P => match index2 P 0 1 with Ok v => Some v | Raise _ => None end
  | Raise _ => None
  end.

(** The logistic squash [1 / (1 + e^-s)], when it can be computed. *)
Definition logistic (B : Builtins) (s : float) : option float :=
  e ← math_exp B (- s)%float;
  if (1 + e =? 0)%float then None else Some (1 / (1 + e))%float.

(** What the anomaly detector yields for [X]: [None] without a detector,
    [Some None] when the detector or the squash fails, and otherwise the
    squashed negated raw score. *)
Definition anomaly_output (B : Builtins) (self : Agent.FraudDetectionAgent)
           (X : matrix) : option (option float) :=
  d ← iso (Agent.model self);
  Some (match call (score_samples d) X with
        | Ok v =>
            match index1 v 0 with
            | Ok raw => logistic B (- raw)%float
            | Raise _ => None
            end
        | Raise _ => None
        end).

(** The scoring rule as the specification states it: a risk in the unit
    interval, blended from the squashed anomaly score whenever a detector
    is present. *)
Definition score_as_stated (B : Builtins) (now : Z)
           (self : Agent.FraudDetectionAgent) (tx : gmap string pyval) : Prop :=
  exists X cols p r,
    Agent.features B now self tx = Ok (X, cols)
    /\ p = default 0.5%float (classifier_output self X)
    /\ Agent.score B now self tx = Ok r
    /\ in_unit_interval r
    /\ match iso (Agent.model self) with
       | Some d =>
           exists v raw s,
             call (score_samples d) X = Ok v
             /\ index1 v 0 = Ok raw
             /\ logistic B (- raw)%float = Some s
             /\ r = clamp01 (0.5 * p + 0.5 * s)%float
       | None => r = clamp01 p
       end.

(** The neutral default artifact as the specification states it: no
    scaling, a classifier answering the constant 0.5, no anomaly
    detector. *)
Definition neutral_as_stated (m : FraudModel) : Prop :=
  scaler m = None
  /\ iso m = None
  /\ exists c f,
       clf m = Some c
       /\ predict_proba c = Some f
       /\ forall X, exists P, f X = Ok P /\ index2 P 0 1 = Ok 0.5%float.

End Spec.

(** ** Sample inputs *)

Module Sample.

(** A stand-in for the C-level builtins, used to run the theorems on
    sample inputs: it answers the listed points as CPython does and is
    arbitrary elsewhere. *)
Definition builtins : Builtins :=
  {| float_of_str := fun s => if String.eqb s "0" then Some 0%float else None;
     int_of_str := fun s => if String.eqb s "0" then Some 0 else None;
     str_other := fun v =>
       match v with PList [] => Ok "[]" | _ => Raise ValueError end;
     float_floordiv := fun _ _ => 0%float;
     math_exp := fun x => if (x =? 0)%float then Some 1%float else None |}.

Definition model_path : string := "models/fraud_model.joblib".

(** The agent that starts without a stored model, at the default
    threshold. *)
Definition degraded_agent : Agent.FraudDetectionAgent :=
  {| Agent.model := Agent.default_model;
     Agent.threshold := Agent.RISK_THRESHOLD |}.

(** A scaler fitted on three columns: it rejects any other width. *)
Definition three_column_scaler : estimator :=
  {| transform := Some (fun X =>
       if forallb (fun r => (length r =? 3)%nat) X
       then Ok X else Raise ValueError);
     predict_proba := None;
     score_samples := None |}.

(** An artifact produced for an older, three-column feature schema. *)
Definition three_column_model : FraudModel :=
  {| scaler := Some three_column_scaler;
     clf := Some LogisticRegression;
     iso := None |}.

(** A constant detector: every sample scores [0]. *)
Definition flat_detector : estimator :=
  {| transform := None;
     predict_proba := None;
     score_samples := Some (fun X => Ok (map (fun _ => 0%float) X)) |}.

(** A constant classifier: every sample is fraud with probability 0.25. *)
Definition quarter_classifier : estimator :=
  {| transform := None;
     predict_proba := Some (fun X => Ok (map (fun _ => [0.75; 0.25]%float) X));
     score_samples := None |}.

(** A classifier whose probability is not a number. *)
Definition nan_classifier : estimator :=
  {| transform := None;
     predict_proba := Some (fun X => Ok (map (fun _ => [nan; nan]) X));
     score_samples := None |}.

Definition nan_agent : Agent.FraudDetectionAgent :=
  {| Agent.model := {| scaler := None;
                       clf := Some nan_classifier;
                       iso := None |};
     Agent.threshold := Agent.RISK_THRESHOLD |}.

Definition fitted_agent : Agent.FraudDetectionAgent :=
  {| Agent.model := {| scaler := None;
                       clf := Some quarter_classifier;
                       iso := Some flat_detector |};
     Agent.threshold := Agent.RISK_THRESHOLD |}.

(** A stand-in for pandas and scikit-learn whose data set is empty. *)
Definition library : Trainer.Library :=
  {| Trainer.load_dataset := fun _ => Ok [];
     Trainer.train_test_split := fun _ _ => Raise ValueError;
     Trainer.StandardScaler_fit_transform := fun _ => Raise ValueError;
     Trainer.LogisticRegression_fit := fun _ _ => Raise ValueError;
     Trainer.IsolationForest_fit := fun _ => Raise ValueError;
     Trainer.classification_report := fun _ _ => Ok (PDict []);
     Trainer.roc_auc_score := fun _ _ => Raise ValueError |}.

Definition tx_timed : gmap string pyval :=
  {[ "ts" := PInt 1700000000000 ]}.

Definition tx_retry_false : gmap string pyval :=
  {[ "ts" := PInt 1700000000000; "retry" := PStr "false" ]}.

Definition tx_retry_TRUE : gmap string pyval :=
  {[ "ts" := PInt 1700000000000; "retry" := PStr "TRUE" ]}.

Definition tx_memo_5 : gmap string pyval :=
  {[ "ts" := PInt 1700000000000; "memo" := PInt 5 ]}.

(** An empty memo cell of a CSV file reaches the extractor as NaN. *)
Definition tx_memo_nan : gmap string pyval :=
  {[ "ts" := PInt 1700000000000; "memo" := PFloat nan ]}.

Definition tx_ts_text : gmap string pyval :=
  {[ "ts" := PStr "yesterday" ]}.

Definition tx_epoch : gmap string pyval :=
  {[ "ts" := PInt 0 ]}.

Definition tx_success : gmap string pyval :=
  {[ "status" := PStr "success" ]}.

Definition tx_queued : gmap string pyval :=
  {[ "ts" := PInt 1700000000000; "status" := PStr "queued" ]}.

End Sample.

(** ** Severity as an ordinal *)

Module Severity.

(** The four levels in increasing order; any other text ranks lowest. *)
Definition rank (level : string) : nat :=
  if String.eqb level "critical" then 3
  else if String.eqb level "high" then 2
  else if String.eqb level "medium" then 1
  else 0.

End Severity.

(** ** [json.dumps], as far as [feedback] uses it *)

Module Json.

Definition hex_digit (n : nat) : ascii :=
  nth n (list_ascii_of_string "0123456789abcdef") "0"%char.

(** What [encode_basestring_ascii] puts for one character: backslash and
    quote get a backslash, the printable ASCII characters stay, the five
    usual control characters get their letter, everything else becomes
    [\u00xx]. *)
Definition escape_char (c : ascii) : string :=
  let n := nat_of_ascii c in
  if (n =? 92)%nat then String "092" (String "092" "")
  else if (n =? 34)%nat then String "092" (String "034" "")
  else if ((32 <=? n) && (n <=? 126))%nat then String c ""
  else if (n =? 8)%nat then "\b"
  else if (n =? 12)%nat then "\f"
  else if (n =? 10)%nat then "\n"
  else if (n =? 13)%nat then "\r"
  else if (n =? 9)%nat then "\t"
  else "\u00" ++ String (hex_digit (n / 16)) (String (hex_digit (n mod 16)) "").

Fixpoint escape (s : string) : string :=
  match s with
  | EmptyString => EmptyString
  | String c s' => escape_char c ++ escape s'
  end.

(** [json.dumps(s)] on a [str]. *)
Definition dumps_str (s : string) : string :=
  String "034" (escape s ++ String "034" "").

(** [json.dumps(n)] on an [int]: the text of [str(n)], with its digit
    limit. *)
Definition dumps_int (n : Z) : res string := int_to_str n.

(** [json.dumps({"txId": tx_id, "label": label})] *)
Definition dumps_feedback (tx_id : string) (label : Z) : res string :=
  digits ← dumps_int label;
  Ok ("{" ++ dumps_str "txId" ++ ": " ++ dumps_str tx_id ++ ", "
          ++ dumps_str "label" ++ ": " ++ digits ++ "}").

(** A printable ASCII character: none of them ends a line. *)
Definition printable (c : ascii) : bool :=
  ((32 <=? nat_of_ascii c) && (nat_of_ascii c <=? 126))%nat.

Definition all_printable (s : string) : bool :=
  forallb printable (list_ascii_of_string s).

End Json.

(** ** [fraud-detection-agent.py]: feedback, the listening loop, the script *)

Module AgentIO.

(** Text files: path to content. *)
Definition textfs : Type := gmap string string.

(** [FraudDetectionAgent.feedback]; [model_path] is [self.model_path].  The
    file is opened for appending (which creates it) before the label is
    converted and the record is encoded, so a label that is no number, or
    one too long to print, leaves an untouched or empty file behind. *)
Definition feedback (B : Builtins) (model_path : string) (files : textfs)
           (tx_id : string) (label : pyval) : textfs * res unit :=
  let path := Paths.join (Paths.dirname model_path) "feedback.jsonl" in
  match (_ ← makedirs_dirname path; open_for_writing path) with
  | Raise e => (files, Raise e)
  | Ok _ =>
      let old := default "" (files !! path) in
      match (n ← int_ B label; Json.dumps_feedback tx_id n) with
      | Raise e => (<[path := old]> files, Raise e)
      | Ok record => (<[path := old ++ record ++ String "010" ""]> files, Ok tt)
      end
  end.

(** What the listening loop needs from outside: [json.loads] ([None] is a
    decoding error) and [round(x, 3)]. *)
Record Runtime : Type := {
  json_loads : string -> option pyval;
  round3 : float -> float
}.

(** A decoded JSON object as a record; a repeated key keeps its last
    value. *)
Definition as_object (v : pyval) : option (gmap string pyval) :=
  match v with
  | PDict d => Some (list_to_map (reverse d))
  | _ => None
  end.

(** The record logged for a scored transaction. *)
Record scored_record : Type := {
  scored_risk : float;
  scored_level : string
}.

(** What the loop has done so far: the alerts raised and the log. *)
Record state : Type := {
  outbox : list Agent.alert_message;
  scored : list scored_record
}.

Definition initial : state := {| outbox := []; scored := [] |}.

(** One turn of the loop of [listen_ws] on the message [raw]: the state
    after it and, when the turn raises, the exception that ends the loop. *)
Definition handle_message (B : Builtins) (R : Runtime) (now : Z)
           (self : Agent.FraudDetectionAgent) (st : state) (raw : string)
  : state * option exn :=
  match json_loads R raw with
  | None => (st, None)
  | Some msg =>
      match as_object msg with
      | None => (st, Some AttributeError)
      | Some m =>
          let event := get m "event" PNone in
          let payload := get m "payload" PNone in
          match as_object payload with
          | None => (st, None)
          | Some tx =>
              if negb (truthy event) then (st, None)
              else
                match event with
                | PStr name =>
                    if String.prefix "payment:" name then
                      match Agent.process_tx B now self (outbox st) tx with
                      | Ok (out, alerts) =>
                          ({| outbox := alerts;
                              scored := scored st ++
                                [ {| scored_risk := round3 R (Agent.risk out);
                                     scored_level := Agent.level out |} ] |},
                           None)
                      | Raise e => (st, Some e)
                      end
                    else (st, None)
                | _ => (st, Some AttributeError)
                end
          end
      end
  end.

(** How a run of [listen_ws] ends. *)
Inductive ending : Type :=
| NoWebsockets
| ConnectionClosed
| Crashed (e : exn).

(** The loop over the messages received before the connection closes;
    [clock i] is the time read during turn [i]. *)
Fixpoint listen_loop (B : Builtins) (R : Runtime) (clock : nat -> Z)
         (self : Agent.FraudDetectionAgent) (i : nat) (st : state)
         (msgs : list string) : state * ending :=
  match msgs with
  | [] => (st, ConnectionClosed)
  | raw :: rest =>
      match handle_message B R (clock i) self st raw with
      | (st', None) => listen_loop B R clock self (S i) st' rest
      | (st', Some e) => (st', Crashed e)
      end
  end.

Definition listen_ws (websockets : bool) (B : Builtins) (R : Runtime)
           (clock : nat -> Z) (self : Agent.FraudDetectionAgent)
           (msgs : list string) : state * ending :=
  if websockets then listen_loop B R clock self 0 initial msgs
  else (initial, NoWebsockets).

(** The parsed command line. *)
Inductive mode : Type := Listen | Score.

Record args : Type := {
  arg_mode : mode;
  arg_tx : option string;
  arg_threshold : float
}.

(** How the script ends. *)
Inductive main_end : Type :=
| Printed (out : Agent.assessment) (alerts : list Agent.alert_message)
| SystemExit (msg : string)
| Failed (e : exn)
| Listened (st : state) (e : ending).

(** [main] of the scorer; [model_path] is [MODEL_DEFAULT] and [msgs] the
    messages a listening run receives. *)
Definition main (websockets : bool) (B : Builtins) (R : Runtime)
           (clock : nat -> Z) (fs : filesystem) (model_path : string)
           (a : args) (msgs : list string) : main_end :=
  match Agent.init fs model_path (arg_threshold a) with
  | Raise e => Failed e
  | Ok agent =>
      match arg_mode a with
      | Score =>
          match arg_tx a with
          | None => SystemExit "--tx required in score mode"
          | Some text =>
              if String.eqb text "" then SystemExit "--tx required in score mode"
              else
                match json_loads R text with
                | None => Failed ValueError
                | Some v =>
                    match as_object v with
                    | None => Failed AttributeError
                    | Some tx =>
                        match Agent.process_tx B (clock 0%nat) agent [] tx with
                        | Ok (out, alerts) => Printed out alerts
                        | Raise e => Failed e
                        end
                    end
                end
          end
      | Listen =>
          if websockets then
            let '(st, e) := listen_ws websockets B R clock agent msgs in
            Listened st e
          else SystemExit "Install websockets or set WS_URL for listening mode"
      end
  end.

End AgentIO.

(** ** Shapes of transaction fields *)

Module Shape.

(** A timestamp the extractor can divide: absent or falsy (the clock is
    used), or an [int] or a [bool]. *)
Definition plain_ts (v : pyval) : bool :=
  match v with
  | PNone | PBool _ | PInt _ => true
  | PFloat _ | PStr _ | PList _ | PDict _ => negb (truthy v)
  end.

(** A memo the extractor can measure: absent or falsy, or a text, a list
    or a dict. *)
Definition sized_memo (v : pyval) : bool :=
  match v with
  | PNone | PStr _ | PList _ | PDict _ => true
  | PBool _ | PInt _ | PFloat _ => negb (truthy v)
  end.

(** The fields the extractor reads. *)
Definition read_keys : list string :=
  ["ts"; "amount"; "status"; "retry"; "memo"].

End Shape.

(** ** A sample training run *)

Module TrainingSample.

(** A scaler that leaves every matrix as it is. *)
Definition identity_scaler : estimator :=
  {| transform := Some (fun X => Ok X);
     predict_proba := None;
     score_samples := None |}.

(** Two rows of data, one legitimate and one fraudulent. *)
Definition rows : list Trainer.row :=
  [ {[ "ts" := PInt 1700000000000; "label" := PInt 0 ]};
    {[ "ts" := PInt 1700000000000; "retry" := PBool true; "label" := PInt 1 ]} ].

(** A stand-in for pandas and scikit-learn on which every step succeeds. *)
Definition library : Trainer.Library :=
  {| Trainer.load_dataset := fun _ => Ok rows;
     Trainer.train_test_split := fun X y => Ok (X, X, y, y);
     Trainer.StandardScaler_fit_transform := fun X => Ok (identity_scaler, X);
     Trainer.LogisticRegression_fit := fun _ _ => Ok Sample.quarter_classifier;
     Trainer.IsolationForest_fit := fun _ => Ok Sample.flat_detector;
     Trainer.classification_report := fun _ _ => Ok (PDict []);
     Trainer.roc_auc_score := fun _ _ => Ok 0.5%float |}.

Definition model : FraudModel :=
  {| scaler := Some identity_scaler;
     clf := Some Sample.quarter_classifier;
     iso := Some Sample.flat_detector |}.

End TrainingSample.

(** ** Messages of the listening loop *)

Module Message.

(** A message the loop passes over: it does not decode, or it decodes to an
    object whose payload is no object, whose event is falsy, or whose event
    is a text that does not start with [payment:]. *)
Definition skipped (R : AgentIO.Runtime) (raw : string) : bool :=
  match AgentIO.json_loads R raw with
  | None => true
  | Some msg =>
      match AgentIO.as_object msg with
      | None => false
      | Some m =>
          match AgentIO.as_object (get m "payload" PNone) with
          | None => true
          | Some _ =>
              negb (truthy (get m "event" PNone))
              || match get m "event" PNone with
                 | PStr name => negb (String.prefix "payment:" name)
                 | _ => false
                 end
          end
      end
  end.

(** A message that decodes to something other than an object. *)
Definition not_an_object (R : AgentIO.Runtime) (raw : string) : bool :=
  match AgentIO.json_loads R raw with
  | Some msg =>
      match AgentIO.as_object msg with
      | None => true
      | Some _ => false
      end
  | None => false
  end.

(** The transaction of a payment event, when the message is one. *)
Definition payment (R : AgentIO.Runtime) (raw : string)
  : option (gmap string pyval) :=
  msg ← AgentIO.json_loads R raw;
  m ← AgentIO.as_object msg;
  tx ← AgentIO.as_object (get m "payload" PNone);
  match get m "event" PNone with
  | PStr name => if String.prefix "payment:" name then Some tx else None
  | _ => None
  end.

Definition quote : string := String "034" "".

(** The text [{"event":"payment:new","payload":{"amount":1500000,"status":"success"}}]. *)
Definition payment_new : string :=
  "{" ++ quote ++ "event" ++ quote ++ ":" ++ quote ++ "payment:new" ++ quote
  ++ "," ++ quote ++ "payload" ++ quote ++ ":{" ++ quote ++ "amount" ++ quote
  ++ ":1500000," ++ quote ++ "status" ++ quote ++ ":" ++ quote ++ "success"
  ++ quote ++ "}}".

(** A stand-in for [json.loads] and [round], right on the sample messages:
    the payment above, the number [5], and texts that are no JSON. *)
Definition runtime : AgentIO.Runtime :=
  {| AgentIO.json_loads := fun raw =>
       if String.eqb raw payment_new then
         Some (PDict [ ("event", PStr "payment:new");
                       ("payload", PDict [ ("amount", PInt 1500000);
                                           ("status", PStr "success") ]) ])
       else if String.eqb raw "5" then Some (PInt 5)
       else None;
     AgentIO.round3 := fun x => x |}.

End Message.

(** * Properties *)

(** ** Facts about the order of binary64 *)

Module FloatFacts.

Ltac crush_cmp :=
  repeat match goal with
  | s : bool |- _ => destruct s
  | |- context [ (?a ?= ?b)%Z ] => destruct (Z.compare_spec a b)
  | |- context [ Pos.compare_cont Eq ?a ?b ] =>
      change (Pos.compare_cont Eq a b) with (Pos.compare a b);
      destruct (Pos.compare_spec a b)
  end;
  simpl; split; intros; try discriminate; try tauto; try lia.

Lemma SFltb_rank (x y : spec_float) :
  SFltb x y = true <-> number x /\ number y /\ lt3 (rank x) (rank y).
Proof.
  unfold SFltb, number, lt3.
  destruct x, y; simpl; crush_cmp;
  try (split; [congruence | split; [congruence | lia]]).
Qed.

Lemma SFleb_rank (x y : spec_float) :
  SFleb x y = true <-> number x /\ number y /\ le3 (rank x) (rank y).
Proof.
  unfold SFleb, number, le3.
  destruct x, y; simpl; crush_cmp;
  try (split; [congruence | split; [congruence | lia]]).
Qed.

Lemma SFcompare_refl (x : spec_float) :
  number x -> SFcompare x x = Some Eq.
Proof.
  unfold number. destruct x as [s|s| |s m e]; simpl; try congruence.
  - destruct s; reflexivity.
  - intros _. rewrite Z.compare_refl.
    change (Pos.compare_cont Eq m m) with (Pos.compare m m).
    rewrite Pos.compare_refl. destruct s; reflexivity.
Qed.

Lemma is_number_spec (x : float) : is_number x <-> number (Prim2SF x).
Proof.
  unfold is_number, is_nan. rewrite FloatAxioms.eqb_spec. unfold SFeqb. split.
  - intros H N. unfold number in N. rewrite N in H. discriminate.
  - intros N. rewrite (SFcompare_refl _ N). reflexivity.
Qed.

Lemma ltb_rank (x y : float) :
  (x <? y)%float = true <->
  is_number x /\ is_number y /\ lt3 (rank (Prim2SF x)) (rank (Prim2SF y)).
Proof. rewrite FloatAxioms.ltb_spec, SFltb_rank, !is_number_spec. reflexivity. Qed.

Lemma leb_rank (x y : float) :
  (x <=? y)%float = true <->
  is_number x /\ is_number y /\ le3 (rank (Prim2SF x)) (rank (Prim2SF y)).
Proof. rewrite FloatAxioms.leb_spec, SFleb_rank, !is_number_spec. reflexivity. Qed.

Lemma leb_trans (x y z : float) :
  (x <=? y)%float = true -> (y <=? z)%float = true -> (x <=? z)%float = true.
Proof.
  rewrite !leb_rank. unfold le3. intros (Hx & _ & H1) (_ & Hz & H2).
  split; [exact Hx | split; [exact Hz | lia]].
Qed.

Lemma ltb_leb_trans (x y z : float) :
  (x <? y)%float = true -> (y <=? z)%float = true -> (x <=? z)%float = true.
Proof.
  rewrite ltb_rank, !leb_rank. unfold lt3, le3.
  intros (Hx & _ & H1) (_ & Hz & H2).
  split; [exact Hx | split; [exact Hz | lia]].
Qed.

Lemma not_ltb_leb (x y : float) :
  is_number x -> is_number y ->
  (x <? y)%float = false -> (y <=? x)%float = true.
Proof.
  intros Hx Hy H. apply leb_rank. split; [exact Hy | split; [exact Hx |]].
  assert (N : ~ lt3 (rank (Prim2SF x)) (rank (Prim2SF y))).
  { intros L. assert ((x <? y)%float = true) by (apply ltb_rank; auto).
    congruence. }
  unfold lt3 in N. unfold le3. lia.
Qed.

Lemma leb_is_number (x y : float) :
  (x <=? y)%float = true -> is_number x /\ is_number y.
Proof. rewrite leb_rank. tauto. Qed.

(** [p >= max(t, c)] says [p >= t] and [p >= c], for Python's [max] and
    any threshold [t], NaN included. *)
Lemma max_leb (t c p : float) :
  is_number c ->
  (Py.max t c <=? p)%float = true <->
  (t <=? p)%float = true /\ (c <=? p)%float = true.
Proof.
  intros Hc. unfold Py.max. destruct (t <? c)%float eqn:E.
  - split.
    + intros H. split; [apply (ltb_leb_trans _ _ _ E H) | exact H].
    + tauto.
  - split.
    + intros H. split; [exact H |].
      destruct (leb_is_number _ _ H) as [Ht _].
      apply (leb_trans _ t); [apply not_ltb_leb; assumption | exact H].
    + tauto.
Qed.

(** The source's [min(max(v, 0.0), 1.0)] is the clamp. *)
Lemma min_max_clamp (v : float) :
  Py.min (Py.max v 0) 1 = Spec.clamp01 v.
Proof.
  unfold Py.max, Py.min, Spec.clamp01.
  destruct (v <? 0)%float eqn:E0.
  - reflexivity.
  - reflexivity.
Qed.

Lemma clamp_range (v : float) :
  is_number v -> in_unit_interval (Spec.clamp01 v).
Proof.
  intros Hv. unfold Spec.clamp01, in_unit_interval.
  destruct (v <? 0)%float eqn:E0.
  - split; reflexivity.
  - destruct (1 <? v)%float eqn:E1.
    + split; reflexivity.
    + split.
      * apply not_ltb_leb; [exact Hv | reflexivity | exact E0].
      * apply not_ltb_leb; [reflexivity | exact Hv | exact E1].
Qed.

End FloatFacts.

Import FloatFacts.

(** ** Severity classification *)

Section Classify.

Variable self : Agent.FraudDetectionAgent.
Variable p : float.

Let t : float := Agent.threshold self.

Lemma classify_cases :
  Agent.classify self p =
    if (t <=? p)%float
    then (if (0.9 <=? p)%float then "critical" else "high")
    else (if (0.4 <=? p)%float then "medium" else "low").
Proof.
  unfold Agent.classify. fold t.
  destruct (Py.max t 0.9 <=? p)%float eqn:Emax.
  - apply max_leb in Emax; [| reflexivity].
    destruct Emax as [-> ->]. reflexivity.
  - destruct (t <=? p)%float eqn:Et; [| reflexivity].
    destruct (0.9 <=? p)%float eqn:E9; [| reflexivity].
    assert (H : (Py.max t 0.9 <=? p)%float = true)
      by (apply max_leb; [reflexivity | auto]).
    congruence.
Qed.

End Classify.

(** C3. For every risk [p] and every threshold [t], [classify] answers
    critical exactly when [p >= t] and [p >= 0.9] (that is, [p >= max(t,
    0.9)]); otherwise high exactly when [p >= t]; otherwise medium exactly
    when [p >= 0.4]; otherwise low.  Each band contains its lower bound, the
    four bands are disjoint and every risk falls in one of them; with
    [t = 0.7] the risks 0.95, 0.75, 0.5 and 0.1 are critical, high, medium
    and low. *)
Theorem classify_bands (self : Agent.FraudDetectionAgent) (p : float) :
  let t := Agent.threshold self in
  (Agent.classify self p = "critical"
     <-> (t <=? p)%float = true /\ (0.9 <=? p)%float = true)
  /\ (Agent.classify self p = "high"
     <-> (t <=? p)%float = true /\ (0.9 <=? p)%float = false)
  /\ (Agent.classify self p = "medium"
     <-> (t <=? p)%float = false /\ (0.4 <=? p)%float = true)
  /\ (Agent.classify self p = "low"
     <-> (t <=? p)%float = false /\ (0.4 <=? p)%float = false)
  /\ In (Agent.classify self p) ["critical"; "high"; "medium"; "low"]
  /\ map (Agent.classify Sample.degraded_agent) [0.95; 0.75; 0.5; 0.1]%float
     = ["critical"; "high"; "medium"; "low"]
  /\ map (Agent.classify Sample.degraded_agent) [0.9; 0.7; 0.4]%float
     = ["critical"; "high"; "medium"].
Proof.
  intros t. rewrite classify_cases. fold t.
  destruct (t <=? p)%float, (0.9 <=? p)%float, (0.4 <=? p)%float;
    simpl; repeat split; intros; try tauto; try discriminate;
    try (destruct_and?; discriminate).
Qed.

(** ** Feature extraction *)

Ltac unfold_res := unfold mbind, mret, res_bind, res_ret, bind in *.

Ltac case_res H :=
  match type of H with
  | context [ match ?m with Ok _ => _ | Raise _ => _ end ] =>
      let E := fresh "E" in destruct m eqn:E; [| discriminate H]
  end.

Section Extraction.

Variable B : Builtins.
Variable now : Z.
Variable tx : gmap string pyval.

Lemma safe_num_total (x : pyval) :
  Agent._safe_num B x = Ok (match float_ B x with Ok f => f | Raise _ => 0%float end).
Proof. unfold Agent._safe_num, try_except. destruct (float_ B x); reflexivity. Qed.

Lemma mirror_safe_num (x : pyval) : Mirror._safe_num B x = Agent._safe_num B x.
Proof. reflexivity. Qed.

(** The seconds the hour is computed from. *)
Let secs : res Z :=
  int_floordiv_1000 B (or_else (get tx "ts" PNone) (PInt now)).

Let memo_size : res nat := len (or_else (get tx "memo" PNone) (PStr "")).

Let status_text : res string := str_ B (get tx "status" (PStr "")).

Let flag (b : bool) : float := (if b then 1 else 0)%float.

Let vector (s : Z) (text : string) (n : nat) (retry : bool) : fdict :=
  [ ("amount", match float_ B (get tx "amount" (PInt 0)) with
               | Ok f => f | Raise _ => 0%float end);
    ("hour", Z_to_float ((s mod 86400) / 3600));
    ("is_retry", flag retry);
    ("memo_len", Z_to_float (Z.of_nat n));
    ("st_success", flag (contains "success" (lower text)));
    ("st_failed", flag (contains "fail" (lower text)));
    ("st_queued", flag (contains "queue" (lower text))) ].

(** The scorer's extractor returns exactly when the timestamp divides, the
    status has a text and the memo has a length, and then returns this
    vector; the first of the three that fails decides the error. *)
Lemma agent_extract_eq :
  Agent._extract_features B now tx =
    match secs, status_text, memo_size with
    | Ok s, Ok text, Ok n =>
        Ok (vector s text n (truthy (get tx "retry" (PBool false))))
    | Raise e, _, _ => Raise e
    | Ok _, Raise e, _ => Raise e
    | Ok _, Ok _, Raise e => Raise e
    end.
Proof.
  unfold Agent._extract_features, secs, status_text, memo_size, vector, flag.
  unfold_res. rewrite safe_num_total.
  destruct (int_floordiv_1000 _ _); [| reflexivity].
  destruct (str_ _ _); [| reflexivity].
  destruct (len _); reflexivity.
Qed.

Lemma mirror_extract_eq :
  Mirror._extract_features B now tx =
    match secs, status_text, memo_size with
    | Ok s, Ok text, Ok n =>
        Ok (vector s text n
              (Mirror.in_retry_tuple (get tx "retry" (PBool false))))
    | Raise e, _, _ => Raise e
    | Ok _, Raise e, _ => Raise e
    | Ok _, Ok _, Raise e => Raise e
    end.
Proof.
  unfold Mirror._extract_features, secs, status_text, memo_size, vector, flag.
  unfold_res. rewrite mirror_safe_num, safe_num_total.
  destruct (int_floordiv_1000 _ _); [| reflexivity].
  destruct (str_ _ _); [| reflexivity].
  destruct (len _); reflexivity.
Qed.

Lemma agent_extract_keys (feats : fdict) :
  Agent._extract_features B now tx = Ok feats ->
  keys feats = Spec.listed_order.
Proof.
  rewrite agent_extract_eq. destruct secs; [| discriminate].
  destruct status_text; [| discriminate].
  destruct memo_size; [| discriminate].
  intros [= <-]. reflexivity.
Qed.

Lemma mirror_extract_keys (feats : fdict) :
  Mirror._extract_features B now tx = Ok feats ->
  keys feats = Spec.listed_order.
Proof.
  rewrite mirror_extract_eq. destruct secs; [| discriminate].
  destruct status_text; [| discriminate].
  destruct memo_size; [| discriminate].
  intros [= <-]. reflexivity.
Qed.

(** A returned vector holds the seven entries in the order of the
    dictionary display. *)
Lemma agent_extract_shape (feats : fdict) :
  Agent._extract_features B now tx = Ok feats ->
  exists a h r m ss sf sq,
    feats = [ ("amount", a); ("hour", h); ("is_retry", r); ("memo_len", m);
              ("st_success", ss); ("st_failed", sf); ("st_queued", sq) ].
Proof.
  rewrite agent_extract_eq. destruct secs; [| discriminate].
  destruct status_text; [| discriminate].
  destruct memo_size; [| discriminate].
  intros [= <-]. unfold vector. do 7 eexists. reflexivity.
Qed.

Lemma mirror_extract_shape (feats : fdict) :
  Mirror._extract_features B now tx = Ok feats ->
  exists a h r m ss sf sq,
    feats = [ ("amount", a); ("hour", h); ("is_retry", r); ("memo_len", m);
              ("st_success", ss); ("st_failed", sf); ("st_queued", sq) ].
Proof.
  rewrite mirror_extract_eq. destruct secs; [| discriminate].
  destruct status_text; [| discriminate].
  destruct memo_size; [| discriminate].
  intros [= <-]. unfold vector. do 7 eexists. reflexivity.
Qed.

(** The two extractors agree wherever the truth value of the retry field
    and its membership in the mirror's tuple coincide. *)
Lemma extractors_agree_when :
  truthy (get tx "retry" (PBool false))
    = Mirror.in_retry_tuple (get tx "retry" (PBool false)) ->
  Agent._extract_features B now tx = Mirror._extract_features B now tx.
Proof.
  intros H. rewrite agent_extract_eq, mirror_extract_eq, H. reflexivity.
Qed.

End Extraction.

Section FalsyTimestamp.

Variable B : Builtins.
Variable now : Z.
Variable tx : gmap string pyval.
Variable v : pyval.
Hypothesis present : tx !! "ts" = Some v.
Hypothesis falsy : truthy v = false.

Lemma falsy_ts_is_clock :
  or_else (get tx "ts" PNone) (PInt now) = PInt now.
Proof. unfold get, or_else. rewrite present. simpl. rewrite falsy. reflexivity. Qed.

Lemma absent_ts_is_clock :
  or_else (get (delete "ts" tx) "ts" PNone) (PInt now) = PInt now.
Proof. unfold get. rewrite lookup_delete_eq. reflexivity. Qed.

Lemma get_delete_ts (key : string) (dflt : pyval) :
  key <> "ts" -> get (delete "ts" tx) key dflt = get tx key dflt.
Proof. intros H. unfold get. rewrite lookup_delete_ne by congruence. reflexivity. Qed.

Lemma agent_falsy_ts :
  Agent._extract_features B now tx
  = Agent._extract_features B now (delete "ts" tx).
Proof.
  unfold Agent._extract_features.
  rewrite falsy_ts_is_clock, absent_ts_is_clock.
  rewrite !get_delete_ts by discriminate. reflexivity.
Qed.

Lemma mirror_falsy_ts :
  Mirror._extract_features B now tx
  = Mirror._extract_features B now (delete "ts" tx).
Proof.
  unfold Mirror._extract_features.
  rewrite falsy_ts_is_clock, absent_ts_is_clock.
  rewrite !get_delete_ts by discriminate. reflexivity.
Qed.

Lemma agent_falsy_ts_hour (feats : fdict) :
  Agent._extract_features B now tx = Ok feats ->
  getitem feats "hour" = Ok (Z_to_float (((now / 1000) mod 86400) / 3600)).
Proof.
  rewrite agent_extract_eq, falsy_ts_is_clock. simpl.
  destruct (str_ _ _); [| discriminate].
  destruct (len _); [| discriminate]. intros [= <-]. reflexivity.
Qed.

Lemma mirror_falsy_ts_hour (feats : fdict) :
  Mirror._extract_features B now tx = Ok feats ->
  getitem feats "hour" = Ok (Z_to_float (((now / 1000) mod 86400) / 3600)).
Proof.
  rewrite mirror_extract_eq, falsy_ts_is_clock. simpl.
  destruct (str_ _ _); [| discriminate].
  destruct (len _); [| discriminate]. intros [= <-]. reflexivity.
Qed.

(** With a falsy timestamp nothing about the timestamp can fail: once the
    status has a text and the memo a length, a vector is returned. *)
Lemma agent_falsy_ts_returns (text : string) (n : nat) :
  str_ B (get tx "status" (PStr "")) = Ok text ->
  len (or_else (get tx "memo" PNone) (PStr "")) = Ok n ->
  exists feats, Agent._extract_features B now tx = Ok feats.
Proof.
  intros Hs Hn. rewrite agent_extract_eq, falsy_ts_is_clock, Hs, Hn.
  eexists. reflexivity.
Qed.

Lemma mirror_falsy_ts_returns (text : string) (n : nat) :
  str_ B (get tx "status" (PStr "")) = Ok text ->
  len (or_else (get tx "memo" PNone) (PStr "")) = Ok n ->
  exists feats, Mirror._extract_features B now tx = Ok feats.
Proof.
  intros Hs Hn. rewrite mirror_extract_eq, falsy_ts_is_clock, Hs, Hn.
  eexists. reflexivity.
Qed.

End FalsyTimestamp.

Lemma hour_bounds (secs : Z) : 0 <= (secs mod 86400) / 3600 <= 23.
Proof.
  pose proof (Z.mod_pos_bound secs 86400 ltac:(lia)) as H.
  split.
  - apply Z.div_pos; lia.
  - apply Z.lt_succ_r. apply Z.div_lt_upper_bound; lia.
Qed.

(** The hours 0 to 23 are distinct floats: converting back gives the
    hour. *)
Lemma hour_roundtrip (h : Z) :
  0 <= h <= 23 -> int_of_float (Z_to_float h) = Ok h.
Proof.
  intros H. replace h with (Z.of_nat (Z.to_nat h)) by lia.
  assert (Hn : (Z.to_nat h < 24)%nat) by lia.
  revert Hn. generalize (Z.to_nat h). intros k Hk.
  do 24 (destruct k as [| k]; [reflexivity |]). lia.
Qed.

Lemma hour_float_injective (s s' : Z) :
  Z_to_float ((s mod 86400) / 3600) = Z_to_float ((s' mod 86400) / 3600) ->
  (s mod 86400) / 3600 = (s' mod 86400) / 3600.
Proof.
  intros H.
  pose proof (hour_roundtrip _ (hour_bounds s)) as H1.
  pose proof (hour_roundtrip _ (hour_bounds s')) as H2.
  rewrite H in H1. congruence.
Qed.

(** C10. When the [ts] field of a transaction is present but falsy (for
    example the epoch, [ts = 0]), both extractors treat it as absent: the
    result is the one for the record without [ts], and the hour comes from
    the clock, [((now // 1000) % 86400) // 3600], so it changes with the
    time of the call although a timestamp was supplied.  The timestamp
    itself cannot make the call fail: whenever the status has a text and
    the memo a length, both extractors return a vector, its hour is the
    clock's, and a call at a time of another hour returns another
    vector. *)
Theorem falsy_ts_reads_clock
        (B : Builtins) (now : Z) (tx : gmap string pyval) (v : pyval) :
  tx !! "ts" = Some v ->
  truthy v = false ->
  Agent._extract_features B now tx
    = Agent._extract_features B now (delete "ts" tx)
  /\ Mirror._extract_features B now tx
    = Mirror._extract_features B now (delete "ts" tx)
  /\ (forall feats,
        Agent._extract_features B now tx = Ok feats ->
        getitem feats "hour" = Ok (Z_to_float (((now / 1000) mod 86400) / 3600)))
  /\ (forall feats,
        Mirror._extract_features B now tx = Ok feats ->
        getitem feats "hour" = Ok (Z_to_float (((now / 1000) mod 86400) / 3600)))
  /\ (forall text n,
        str_ B (get tx "status" (PStr "")) = Ok text ->
        len (or_else (get tx "memo" PNone) (PStr "")) = Ok n ->
        exists fa fm,
          Agent._extract_features B now tx = Ok fa
          /\ Mirror._extract_features B now tx = Ok fm
          /\ getitem fa "hour"
             = Ok (Z_to_float (((now / 1000) mod 86400) / 3600))
          /\ getitem fm "hour"
             = Ok (Z_to_float (((now / 1000) mod 86400) / 3600))
          /\ forall later,
               ((later / 1000) mod 86400) / 3600
                 <> ((now / 1000) mod 86400) / 3600 ->
               Agent._extract_features B later tx <> Ok fa
               /\ Mirror._extract_features B later tx <> Ok fm).
Proof.
  intros present falsy. repeat split.
  - eapply agent_falsy_ts; eassumption.
  - eapply mirror_falsy_ts; eassumption.
  - intros feats. eapply agent_falsy_ts_hour; eassumption.
  - intros feats. eapply mirror_falsy_ts_hour; eassumption.
  - intros text n Hs Hn.
    destruct (agent_falsy_ts_returns B now tx v present falsy text n Hs Hn)
      as [fa Ha].
    destruct (mirror_falsy_ts_returns B now tx v present falsy text n Hs Hn)
      as [fm Hm].
    pose proof (agent_falsy_ts_hour B now tx v present falsy fa Ha) as Hha.
    pose proof (mirror_falsy_ts_hour B now tx v present falsy fm Hm) as Hhm.
    exists fa, fm. do 4 (split; [assumption |]).
    intros later Hne. split; intros H.
    + apply (agent_falsy_ts_hour B later tx v present falsy) in H.
      rewrite Hha in H. injection H as H.
      apply hour_float_injective in H. congruence.
    + apply (mirror_falsy_ts_hour B later tx v present falsy) in H.
      rewrite Hhm in H. injection H as H.
      apply hour_float_injective in H. congruence.
Qed.

(** The epoch timestamp, extracted at one o'clock: a vector is returned,
    its hour is 1, not 0, and at two o'clock the vector is another one. *)
Lemma falsy_ts_reads_clock_witness :
  Agent._extract_features Sample.builtins 3600000 Sample.tx_epoch
    = Ok [ ("amount", 0%float); ("hour", 1%float); ("is_retry", 0%float);
           ("memo_len", 0%float); ("st_success", 0%float);
           ("st_failed", 0%float); ("st_queued", 0%float) ]
  /\ Mirror._extract_features Sample.builtins 3600000 Sample.tx_epoch
    = Ok [ ("amount", 0%float); ("hour", 1%float); ("is_retry", 0%float);
           ("memo_len", 0%float); ("st_success", 0%float);
           ("st_failed", 0%float); ("st_queued", 0%float) ]
  /\ Agent._extract_features Sample.builtins 3600000 Sample.tx_epoch
    = Agent._extract_features Sample.builtins 3600000 (delete "ts" Sample.tx_epoch)
  /\ Mirror._extract_features Sample.builtins 3600000 Sample.tx_epoch
    = Mirror._extract_features Sample.builtins 3600000 (delete "ts" Sample.tx_epoch)
  /\ Agent._extract_features Sample.builtins 7200000 Sample.tx_epoch
     <> Ok [ ("amount", 0%float); ("hour", 1%float); ("is_retry", 0%float);
             ("memo_len", 0%float); ("st_success", 0%float);
             ("st_failed", 0%float); ("st_queued", 0%float) ]
  /\ Mirror._extract_features Sample.builtins 7200000 Sample.tx_epoch
     <> Ok [ ("amount", 0%float); ("hour", 1%float); ("is_retry", 0%float);
             ("memo_len", 0%float); ("st_success", 0%float);
             ("st_failed", 0%float); ("st_queued", 0%float) ].
Proof.
  destruct (falsy_ts_reads_clock Sample.builtins 3600000 Sample.tx_epoch
              (PInt 0) eq_refl eq_refl) as (H1 & H2 & _ & _ & H5).
  destruct (H5 "" 0%nat eq_refl eq_refl) as (fa & fm & Ha & Hm & _ & _ & Hlater).
  assert (Ea : Agent._extract_features Sample.builtins 3600000 Sample.tx_epoch
               = Ok [ ("amount", 0%float); ("hour", 1%float);
                      ("is_retry", 0%float); ("memo_len", 0%float);
                      ("st_success", 0%float); ("st_failed", 0%float);
                      ("st_queued", 0%float) ]) by reflexivity.
  assert (Em : Mirror._extract_features Sample.builtins 3600000 Sample.tx_epoch
               = Ok [ ("amount", 0%float); ("hour", 1%float);
                      ("is_retry", 0%float); ("memo_len", 0%float);
                      ("st_success", 0%float); ("st_failed", 0%float);
                      ("st_queued", 0%float) ]) by reflexivity.
  rewrite Ea in Ha. injection Ha as <-.
  rewrite Em in Hm. injection Hm as <-.
  split; [exact Ea | split; [exact Em |]].
  split; [exact H1 | split; [exact H2 |]].
  apply (Hlater 7200000). discriminate.
Defined.

(** C2. The empty record extracts to zeros (with the hour of the clock),
    as claimed; but the extractor is not total: a memo that is a number
    (here [5], or the NaN of an empty CSV cell) makes [len] raise
    [TypeError], and a timestamp that is a text makes the floor division
    raise [TypeError], in both modules, whatever the builtins and the
    clock. *)
Theorem extract_features_raises (B : Builtins) (now : Z) :
  Agent._extract_features B now ∅
    = Ok [ ("amount", 0%float);
           ("hour", Z_to_float (((now / 1000) mod 86400) / 3600));
           ("is_retry", 0%float);
           ("memo_len", 0%float);
           ("st_success", 0%float);
           ("st_failed", 0%float);
           ("st_queued", 0%float) ]
  /\ Mirror._extract_features B now ∅ = Agent._extract_features B now ∅
  /\ Agent._extract_features B now Sample.tx_memo_5 = Raise TypeError
  /\ Mirror._extract_features B now Sample.tx_memo_5 = Raise TypeError
  /\ Agent._extract_features B now Sample.tx_memo_nan = Raise TypeError
  /\ Mirror._extract_features B now Sample.tx_memo_nan = Raise TypeError
  /\ Agent._extract_features B now Sample.tx_ts_text = Raise TypeError
  /\ Mirror._extract_features B now Sample.tx_ts_text = Raise TypeError.
Proof.
  repeat split; reflexivity.
Qed.

(** C5. The two extractors are not the same function: on a record whose
    retry field is the text ["false"], the scorer's module answers
    [is_retry = 1] (the text is truthy) and the mirror answers
    [is_retry = 0] (the text is not in its tuple); every other feature
    agrees. *)
Theorem extractors_differ (B : Builtins) (now : Z) :
  Agent._extract_features B now Sample.tx_retry_false
    = Ok [ ("amount", 0%float); ("hour", 22%float); ("is_retry", 1%float);
           ("memo_len", 0%float); ("st_success", 0%float);
           ("st_failed", 0%float); ("st_queued", 0%float) ]
  /\ Mirror._extract_features B now Sample.tx_retry_false
    = Ok [ ("amount", 0%float); ("hour", 22%float); ("is_retry", 0%float);
           ("memo_len", 0%float); ("st_success", 0%float);
           ("st_failed", 0%float); ("st_queued", 0%float) ]
  /\ Agent._extract_features B now Sample.tx_retry_false
     <> Mirror._extract_features B now Sample.tx_retry_false.
Proof.
  assert (HA : Agent._extract_features B now Sample.tx_retry_false
    = Ok [ ("amount", 0%float); ("hour", 22%float); ("is_retry", 1%float);
           ("memo_len", 0%float); ("st_success", 0%float);
           ("st_failed", 0%float); ("st_queued", 0%float) ])
    by reflexivity.
  assert (HM : Mirror._extract_features B now Sample.tx_retry_false
    = Ok [ ("amount", 0%float); ("hour", 22%float); ("is_retry", 0%float);
           ("memo_len", 0%float); ("st_success", 0%float);
           ("st_failed", 0%float); ("st_queued", 0%float) ])
    by reflexivity.
  split; [exact HA | split; [exact HM |]].
  rewrite HA, HM. intros [= H].
Qed.

Section IsRetry.

Variable B : Builtins.
Variable now : Z.
Variable tx : gmap string pyval.
Variable feats : fdict.

(** The scorer's module: [is_retry] is the truth value of the field. *)
Lemma agent_is_retry :
  Agent._extract_features B now tx = Ok feats ->
  getitem feats "is_retry"
    = Ok (if truthy (get tx "retry" (PBool false)) then 1 else 0)%float.
Proof.
  rewrite agent_extract_eq.
  destruct (int_floordiv_1000 _ _); [| discriminate].
  destruct (str_ _ _); [| discriminate].
  destruct (len _); [| discriminate]. intros [= <-]. reflexivity.
Qed.

(** The mirror: [is_retry] is membership in the tuple. *)
Lemma mirror_is_retry :
  Mirror._extract_features B now tx = Ok feats ->
  getitem feats "is_retry"
    = Ok (if Mirror.in_retry_tuple (get tx "retry" (PBool false))
          then 1 else 0)%float.
Proof.
  rewrite mirror_extract_eq.
  destruct (int_floordiv_1000 _ _); [| discriminate].
  destruct (str_ _ _); [| discriminate].
  destruct (len _); [| discriminate]. intros [= <-]. reflexivity.
Qed.

End IsRetry.

(** A float that equals zero does not equal one. *)
Lemma zero_is_not_one (f : float) :
  (f =? 0)%float = true -> (f =? 1)%float = false.
Proof.
  rewrite (FloatAxioms.eqb_spec f 0), (FloatAxioms.eqb_spec f 1).
  change (Prim2SF 0) with (S754_zero false).
  change (Prim2SF 1) with (S754_finite false 4503599627370496 (-52)).
  unfold SFeqb, SFcompare.
  destruct (Prim2SF f) as [s | s | | s m e]; try discriminate.
  - reflexivity.
  - destruct s; discriminate.
  - destruct s; discriminate.
Qed.

(** Where the two modules agree on [is_retry]: both answer 1 on the five
    values of the mirror's tuple, and both answer 0 on a falsy field. *)
Lemma is_retry_common_ground (v : pyval) :
  (In v [PBool true; PInt 1; PStr "1"; PStr "true"; PStr "True"] ->
   truthy v = true /\ Mirror.in_retry_tuple v = true)
  /\ (truthy v = false -> Mirror.in_retry_tuple v = false).
Proof.
  split.
  - simpl. intros [<- | [<- | [<- | [<- | [<- | []]]]]]; split; reflexivity.
  - destruct v as [| b | n | f | s | l | d]; simpl; intros H;
      try reflexivity; try discriminate.
    + rewrite H. reflexivity.
    + unfold Mirror.in_retry_tuple. simpl.
      apply negb_false_iff, Z.eqb_eq in H. subst n. reflexivity.
    + unfold Mirror.in_retry_tuple. simpl.
      apply negb_false_iff in H. rewrite (zero_is_not_one f H). reflexivity.
    + apply negb_false_iff, String.eqb_eq in H. subst s. reflexivity.
Qed.

(** C6. Neither module computes [is_retry] as claimed: the scorer's module
    answers 1 for the text ["false"], which is none of the accepted
    values, and the mirror answers 0 for the text ["TRUE"], which is
    ["true"] up to case. *)
Theorem is_retry_diverges (B : Builtins) (now : Z) :
  (feats ← Agent._extract_features B now Sample.tx_retry_false;
   getitem feats "is_retry") = Ok 1%float
  /\ (feats ← Mirror._extract_features B now Sample.tx_retry_TRUE;
      getitem feats "is_retry") = Ok 0%float
  /\ (feats ← Mirror._extract_features B now Sample.tx_retry_false;
      getitem feats "is_retry") = Ok 0%float
  /\ (feats ← Agent._extract_features B now Sample.tx_retry_TRUE;
      getitem feats "is_retry") = Ok 1%float.
Proof.
  repeat split; reflexivity.
Qed.

(** ** Column order *)

Lemma sorted_listed_order : sorted Spec.listed_order = Spec.sorted_order.
Proof. reflexivity. Qed.

Lemma features_cols
      (B : Builtins) (now : Z) (self : Agent.FraudDetectionAgent)
      (tx : gmap string pyval) (X : matrix) (cols : list string) :
  Agent.features B now self tx = Ok (X, cols) ->
  cols = Spec.sorted_order.
Proof.
  unfold Agent.features. unfold_res. intros H.
  case_res H. apply agent_extract_keys in E. rewrite E in H.
  case_res H. case_res H. injection H as _ <-. reflexivity.
Qed.

Lemma featurize_rows_head
      (B : Builtins) (clock : nat -> Z) (i : nat) (r : Trainer.row)
      (df : list Trainer.row) (feats : list fdict) (labels : list Z) :
  Trainer.featurize_rows B clock i (r :: df) = Ok (feats, labels) ->
  exists f feats',
    feats = f :: feats' /\ Mirror._extract_features B (clock i) r = Ok f.
Proof.
  simpl. unfold_res. intros H.
  case_res H. case_res H. case_res H. destruct a1 as [fs ls].
  injection H as <- _. eauto.
Qed.

Lemma featurize_cols
      (B : Builtins) (clock : nat -> Z) (df : list Trainer.row)
      (X : matrix) (y : list Z) (cols : list string) :
  df <> [] ->
  Trainer.featurize B clock df = Ok (X, y, cols) ->
  cols = Spec.sorted_order.
Proof.
  intros Hdf. destruct df as [| r df]; [congruence |].
  unfold Trainer.featurize. unfold_res. intros H.
  case_res H. destruct a as [feats labels].
  apply featurize_rows_head in E. destruct E as (f & feats' & -> & Hf).
  apply mirror_extract_keys in Hf. rewrite Hf in H.
  case_res H. injection H as _ _ <-. reflexivity.
Qed.

Lemma row_of_length (f : fdict) (cols : list string) (row : list float) :
  row_of f cols = Ok row -> length row = length cols.
Proof.
  revert row. induction cols as [| c cols IH]; simpl; intros row H.
  - injection H as <-. reflexivity.
  - unfold_res. case_res H. case_res H. injection H as <-.
    simpl. f_equal. apply IH. reflexivity.
Qed.

Lemma rows_of_spec (feats : list fdict) (cols : list string) (X : matrix) :
  Trainer.rows_of feats cols = Ok X ->
  length X = length feats
  /\ forall j f, feats !! j = Some f ->
       exists row, row_of f cols = Ok row /\ X !! j = Some row.
Proof.
  revert X. induction feats as [| f0 feats IH]; simpl; intros X H.
  - injection H as <-. split; [reflexivity | intros j f Hj; discriminate Hj].
  - unfold_res. case_res H. case_res H. injection H as <-.
    destruct (IH a0 eq_refl) as [Hlen Hrows]. split.
    + simpl. f_equal. exact Hlen.
    + intros [| j] f Hj; simpl in *.
      * injection Hj as <-. eauto.
      * apply Hrows. exact Hj.
Qed.

Lemma featurize_rows_spec
      (B : Builtins) (clock : nat -> Z) (df : list Trainer.row) :
  forall (i : nat) (feats : list fdict) (labels : list Z),
    Trainer.featurize_rows B clock i df = Ok (feats, labels) ->
    length feats = length df
    /\ length labels = length df
    /\ forall j r, df !! j = Some r ->
         exists f l,
           Mirror._extract_features B (clock (i + j)%nat) r = Ok f
           /\ int_ B (get r "label" (PInt 0)) = Ok l
           /\ feats !! j = Some f
           /\ labels !! j = Some l.
Proof.
  induction df as [| r0 df IH]; simpl; intros i feats labels H.
  - injection H as <- <-.
    repeat split; intros j r Hj; discriminate Hj.
  - unfold_res. case_res H. case_res H. case_res H.
    destruct a1 as [fs ls]. injection H as <- <-.
    destruct (IH _ _ _ E1) as (Hf & Hl & Hrows).
    split; [simpl; f_equal; exact Hf |].
    split; [simpl; f_equal; exact Hl |].
    intros [| j] r Hj; simpl in *.
    + injection Hj as <-. rewrite Nat.add_0_r.
      do 2 eexists. repeat split; eauto.
    + destruct (Hrows j r Hj) as (f & l & H1 & H2 & H3 & H4).
      exists f, l. rewrite Nat.add_succ_r. repeat split; assumption.
Qed.

(** C7, as stated, fails: the columns come out sorted by key, which puts
    [st_failed] and [st_queued] before [st_success]; the listed order is
    the insertion order of the dictionary, and no run yields it.  On a
    transaction whose status is [success] the vector holds [st_success = 1]
    in fifth place, and the row that [features] returns holds the 1 in
    seventh place: whatever the builtins and the clock, the returned row is
    not the vector's values in the listed order. *)
Lemma listed_order_counterexample :
  Agent._extract_features Sample.builtins 0 Sample.tx_success
    = Ok [ ("amount", 0%float); ("hour", 0%float); ("is_retry", 0%float);
           ("memo_len", 0%float); ("st_success", 1%float);
           ("st_failed", 0%float); ("st_queued", 0%float) ]
  /\ Spec.listed_row
       [ ("amount", 0%float); ("hour", 0%float); ("is_retry", 0%float);
         ("memo_len", 0%float); ("st_success", 1%float);
         ("st_failed", 0%float); ("st_queued", 0%float) ]
     = Ok [0; 0; 0; 0; 1; 0; 0]%float
  /\ Agent.features Sample.builtins 0 Sample.degraded_agent Sample.tx_success
     = Ok ([[0; 0; 0; 0; 0; 0; 1]]%float, Spec.sorted_order)
  /\ Spec.sorted_order <> Spec.listed_order
  /\ ~ (exists B now X,
          Agent.features B now Sample.degraded_agent Sample.tx_success
            = Ok (X, Spec.listed_order))
  /\ ~ (exists B now feats row cols,
          Agent._extract_features B now Sample.tx_success = Ok feats
          /\ Spec.listed_row feats = Ok row
          /\ Agent.features B now Sample.degraded_agent Sample.tx_success
             = Ok ([row], cols)).
Proof.
  split; [reflexivity | split; [reflexivity | split; [reflexivity | split]]].
  - discriminate.
  - split.
    + intros (B & now & X & H). apply features_cols in H. discriminate H.
    + intros (B & now & feats & row & cols & HE & HR & HF).
      assert (E : Agent._extract_features B now Sample.tx_success
                  = Ok [ ("amount", 0%float);
                         ("hour", Z_to_float (((now / 1000) mod 86400) / 3600));
                         ("is_retry", 0%float); ("memo_len", 0%float);
                         ("st_success", 1%float); ("st_failed", 0%float);
                         ("st_queued", 0%float) ]) by reflexivity.
      unfold Agent.features in HF. rewrite E in HE, HF.
      injection HE as <-.
      change (Ok [0%float; Z_to_float (((now / 1000) mod 86400) / 3600);
                  0%float; 0%float; 1%float; 0%float; 0%float] = Ok row) in HR.
      injection HR as <-.
      change (Ok ([[0%float; Z_to_float (((now / 1000) mod 86400) / 3600);
                    0%float; 0%float; 0%float; 0%float; 1%float]],
                  Spec.sorted_order)
              = Ok ([[0%float; Z_to_float (((now / 1000) mod 86400) / 3600);
                      0%float; 0%float; 1%float; 0%float; 0%float]], cols))
        in HF.
      pose proof (f_equal (fun out : res (matrix * list string) =>
                             match out with
                             | Ok ([[_; _; _; _; x; _; _]], _) => (x =? 1)%float
                             | _ => false
                             end) HF) as H.
      cbv beta iota in H. vm_compute in H. discriminate H.
Qed.

(** C7, amended. Every feature vector is produced in the key order
    [amount, hour, is_retry, memo_len, st_failed, st_queued, st_success]
    (the keys sorted), and this key set and order are the same in the
    scorer's [features] step and in the trainer's [featurize] step on a
    data set with at least one row.  The values follow the names: with
    [a, h, r, m, ss, sf, sq] the amount, hour, retry, memo length and the
    success, failed and queued flags that the extractor returns, the row
    that [features] hands to the scaler (or returns, without a scaler) is
    [a, h, r, m, sf, sq, ss], and so is row [j] of the trainer's matrix for
    data row [j]. *)
Theorem feature_order
        (B : Builtins) (now : Z) (self : Agent.FraudDetectionAgent)
        (tx : gmap string pyval) (X : matrix) (cols : list string)
        (clock : nat -> Z) (df : list Trainer.row)
        (Xs : matrix) (y : list Z) (cols' : list string) :
  Agent.features B now self tx = Ok (X, cols) ->
  df <> [] ->
  Trainer.featurize B clock df = Ok (Xs, y, cols') ->
  cols = Spec.sorted_order /\ cols' = Spec.sorted_order /\ cols = cols'
  /\ (exists a h r m ss sf sq,
        Agent._extract_features B now tx
          = Ok [ ("amount", a); ("hour", h); ("is_retry", r); ("memo_len", m);
                 ("st_success", ss); ("st_failed", sf); ("st_queued", sq) ]
        /\ match scaler (Agent.model self) with
           | None => X = [[a; h; r; m; sf; sq; ss]]
           | Some sc => call (transform sc) [[a; h; r; m; sf; sq; ss]] = Ok X
           end)
  /\ length Xs = length df
  /\ (forall j row_j,
        df !! j = Some row_j ->
        exists a h r m ss sf sq,
          Mirror._extract_features B (clock j) row_j
            = Ok [ ("amount", a); ("hour", h); ("is_retry", r); ("memo_len", m);
                   ("st_success", ss); ("st_failed", sf); ("st_queued", sq) ]
          /\ Xs !! j = Some [a; h; r; m; sf; sq; ss]).
Proof.
  intros HA Hdf HT.
  pose proof (features_cols _ _ _ _ _ _ HA) as Hc.
  pose proof (featurize_cols _ _ _ _ _ _ Hdf HT) as Hc'.
  split; [exact Hc | split; [exact Hc' | split; [congruence |]]].
  split.
  - unfold Agent.features in HA. unfold_res. case_res HA.
    destruct (agent_extract_shape _ _ _ _ E)
      as (a' & h & r & m & ss & sf & sq & ->). rename a' into a.
    exists a, h, r, m, ss, sf, sq. split; [reflexivity |].
    change (row_of _ (sorted (keys _))) with (Ok [a; h; r; m; sf; sq; ss]) in HA.
    cbn beta iota in HA.
    destruct (scaler (Agent.model self)) as [sc |].
    + case_res HA. injection HA as <- _. reflexivity.
    + injection HA as <- _. reflexivity.
  - unfold Trainer.featurize in HT. unfold_res. case_res HT.
    destruct a as [feats labels]. case_res HT. injection HT as <- <- Hcs.
    destruct (featurize_rows_spec _ _ _ _ _ _ E) as (Hf & Hl & Hrows).
    destruct (rows_of_spec _ _ _ E0) as (HX & HXrows).
    split; [congruence |].
    intros j row_j Hj.
    destruct (Hrows j row_j Hj) as (f & l & H1 & H2 & H3 & H4).
    destruct (HXrows j f H3) as (row & Hrow & HXj).
    rewrite Hcs, Hc' in Hrow.
    destruct (mirror_extract_shape _ _ _ _ H1)
      as (a' & h & r & m & ss & sf & sq & ->).
    exists a', h, r, m, ss, sf, sq. split; [exact H1 |].
    change (Ok [a'; h; r; m; sf; sq; ss] = Ok row) in Hrow.
    injection Hrow as <-. exact HXj.
Qed.

(** A successful payment scored without a stored model, and a queued one
    in the training set: the flag that is set sits in seventh and in sixth
    place. *)
Lemma feature_order_witness :
  Agent.features Sample.builtins 0 Sample.degraded_agent Sample.tx_success
    = Ok ([[0; 0; 0; 0; 0; 0; 1]]%float, Spec.sorted_order)
  /\ Trainer.featurize Sample.builtins (fun _ => 0) [Sample.tx_queued]
    = Ok ([[0; 22; 0; 0; 0; 1; 0]]%float, [0], Spec.sorted_order)
  /\ (exists a h r m ss sf sq,
        Agent._extract_features Sample.builtins 0 Sample.tx_success
          = Ok [ ("amount", a); ("hour", h); ("is_retry", r); ("memo_len", m);
                 ("st_success", ss); ("st_failed", sf); ("st_queued", sq) ]
        /\ [[0; 0; 0; 0; 0; 0; 1]]%float = [[a; h; r; m; sf; sq; ss]])
  /\ length [[0; 22; 0; 0; 0; 1; 0]]%float = length [Sample.tx_queued]
  /\ (forall j row_j,
        [Sample.tx_queued] !! j = Some row_j ->
        exists a h r m ss sf sq,
          Mirror._extract_features Sample.builtins 0 row_j
            = Ok [ ("amount", a); ("hour", h); ("is_retry", r); ("memo_len", m);
                   ("st_success", ss); ("st_failed", sf); ("st_queued", sq) ]
          /\ [[0; 22; 0; 0; 0; 1; 0]]%float !! j = Some [a; h; r; m; sf; sq; ss]).
Proof.
  split; [reflexivity | split; [reflexivity |]].
  apply (feature_order Sample.builtins 0 Sample.degraded_agent Sample.tx_success
           [[0; 0; 0; 0; 0; 0; 1]]%float Spec.sorted_order
           (fun _ => 0) [Sample.tx_queued]
           [[0; 22; 0; 0; 0; 1; 0]]%float [0] Spec.sorted_order).
  - reflexivity.
  - discriminate.
  - reflexivity.
Defined.

(** ** The artifact store *)

Lemma dump_fields_lookup (m : FraudModel) :
  dump_fields m !! "scaler" = Some (scaler m)
  /\ dump_fields m !! "clf" = Some (clf m)
  /\ dump_fields m !! "iso" = Some (iso m).
Proof. repeat split. Qed.

Lemma dump_fields_dom (m : FraudModel) :
  dom (dump_fields m) = ({[ "scaler"; "clf"; "iso" ]} : gset string).
Proof.
  unfold dump_fields. rewrite !dom_insert_L, dom_empty_L. set_solver.
Qed.

Lemma dump_fields_size (m : FraudModel) : size (dump_fields m) = 3%nat.
Proof.
  unfold dump_fields.
  rewrite !map_size_insert_None, map_size_empty; [reflexivity | ..];
    repeat (rewrite lookup_insert_ne by discriminate);
    apply lookup_empty.
Qed.

Lemma kwargs_dump_fields (m : FraudModel) :
  FraudModel_kwargs (PkDict (dump_fields m)) = Ok m.
Proof.
  unfold FraudModel_kwargs.
  destruct (dump_fields_lookup m) as (-> & -> & ->).
  rewrite dump_fields_size. destruct m; reflexivity.
Qed.

Lemma load_stored (fs : filesystem) (path : string) (m : FraudModel) :
  fs !! path = Some (Pickled (PkDict (dump_fields m))) ->
  Agent.load fs path = Ok m /\ Mirror.load fs path = Ok m.
Proof.
  intros H. unfold Agent.load, Mirror.load, joblib_load. rewrite H.
  unfold_res. rewrite kwargs_dump_fields. split; reflexivity.
Qed.

Lemma save_stores (m : FraudModel) (fs fs' : filesystem) (path : string) :
  Mirror.save m fs path = Ok fs' ->
  fs' !! path = Some (Pickled (PkDict (dump_fields m))).
Proof.
  unfold Mirror.save. unfold_res. intros H. case_res H. case_res H.
  injection H as <-. apply lookup_insert_eq.
Qed.

Lemma load_failure (fs : filesystem) (path : string) (e : exn) :
  (obj ← joblib_load fs path; FraudModel_kwargs obj) = Raise e ->
  Agent.load fs path = Ok Agent.default_model.
Proof. intros H. unfold Agent.load. rewrite H. reflexivity. Qed.

(** C8, as stated, fails: what the trainer stores has exactly the keys
    [scaler], [clf] and [iso], so no column order is persisted, and an
    artifact whose scaler was fitted on three columns, not on the seven the
    extractor now yields, is loaded back unchanged rather than replaced by
    the defaults; the mismatch only shows when scoring, as a [ValueError]
    out of [features]. *)
Lemma artifact_order_counterexample :
  dom (dump_fields Sample.three_column_model)
    = ({[ "scaler"; "clf"; "iso" ]} : gset string)
  /\ (fs ← Mirror.save Sample.three_column_model ∅ Sample.model_path;
      Agent.load fs Sample.model_path) = Ok Sample.three_column_model
  /\ Ok Sample.three_column_model <> Ok Agent.default_model
  /\ Agent.score Sample.builtins 0
       {| Agent.model := Sample.three_column_model;
          Agent.threshold := Agent.RISK_THRESHOLD |} ∅
     = Raise ValueError.
Proof.
  split; [apply dump_fields_dom | split; [| split]].
  - change (Mirror.save Sample.three_column_model ∅ Sample.model_path) with
      (Ok (<[Sample.model_path :=
               Pickled (PkDict (dump_fields Sample.three_column_model))]>
             (∅ : filesystem))).
    unfold_res.
    apply (load_stored _ _ Sample.three_column_model), lookup_insert_eq.
  - intros [= H].
  - reflexivity.
Qed.

(** C8, amended. The trainer persists only the scaler, the classifier and
    the anomaly detector, under the keys [scaler], [clf] and [iso]; no
    feature column order is stored.  At load time the scorer checks no
    feature order: whatever was saved is returned as the artifact,
    unchanged. *)
Theorem saved_artifact_loads_unchecked
        (m : FraudModel) (fs fs' : filesystem) (path : string) :
  Mirror.save m fs path = Ok fs' ->
  (exists d,
     fs' !! path = Some (Pickled (PkDict d))
     /\ dom d = ({[ "scaler"; "clf"; "iso" ]} : gset string)
     /\ d !! "scaler" = Some (scaler m)
     /\ d !! "clf" = Some (clf m)
     /\ d !! "iso" = Some (iso m))
  /\ Agent.load fs' path = Ok m.
Proof.
  intros H. apply save_stores in H. split.
  - exists (dump_fields m).
    split; [exact H | split; [apply dump_fields_dom | apply dump_fields_lookup]].
  - apply (load_stored _ _ _ H).
Qed.

Lemma saved_artifact_loads_unchecked_witness :
  Mirror.save Sample.three_column_model ∅ Sample.model_path
    = Ok (<[Sample.model_path :=
              Pickled (PkDict (dump_fields Sample.three_column_model))]> ∅)
  /\ ((exists d,
         (<[Sample.model_path :=
              Pickled (PkDict (dump_fields Sample.three_column_model))]>
            (∅ : filesystem)) !! Sample.model_path
           = Some (Pickled (PkDict d))
         /\ dom d = ({[ "scaler"; "clf"; "iso" ]} : gset string)
         /\ d !! "scaler" = Some (Some Sample.three_column_scaler)
         /\ d !! "clf" = Some (Some LogisticRegression)
         /\ d !! "iso" = Some None)
      /\ Agent.load
           (<[Sample.model_path :=
                Pickled (PkDict (dump_fields Sample.three_column_model))]> ∅)
           Sample.model_path
         = Ok Sample.three_column_model).
Proof.
  split; [reflexivity |].
  apply (saved_artifact_loads_unchecked Sample.three_column_model ∅).
  reflexivity.
Defined.

(** ** Scoring *)

Section Score.

Variable B : Builtins.
Variable self : Agent.FraudDetectionAgent.
Variable X : matrix.

Lemma classifier_probability_eq :
  Agent.classifier_probability self X
    = Ok (default 0.5%float (Spec.classifier_output self X)).
Proof.
  unfold Agent.classifier_probability, Spec.classifier_output.
  destruct (clf (Agent.model self)) as [c |]; [| reflexivity]. simpl.
  destruct (predict_proba c) as [f |]; [| reflexivity]. simpl.
  unfold_res. destruct (f X) as [P | e]; [| reflexivity]. simpl.
  destruct (index2 P 0 1); reflexivity.
Qed.

Lemma anomaly_blend_eq (p : float) :
  Agent.anomaly_blend B self X p
    = Ok (match Spec.anomaly_output B self X with
          | Some (Some s) => (0.5 * p + 0.5 * s)%float
          | Some None | None => p
          end).
Proof.
  unfold Agent.anomaly_blend, Spec.anomaly_output.
  destruct (iso (Agent.model self)) as [d |]; [| reflexivity]. simpl.
  unfold_res. destruct (call (score_samples d) X) as [v | e]; [| reflexivity].
  simpl. destruct (index1 v 0) as [raw | e]; [| reflexivity]. simpl.
  unfold Spec.logistic.
  destruct (math_exp B (- - raw)%float) as [e |]; [| reflexivity]. simpl.
  unfold truediv. destruct (1 + e =? 0)%float; reflexivity.
Qed.

End Score.

Lemma score_eq
      (B : Builtins) (now : Z) (self : Agent.FraudDetectionAgent)
      (tx : gmap string pyval) (X : matrix) (cols : list string) :
  Agent.features B now self tx = Ok (X, cols) ->
  Agent.score B now self tx
    = Ok (Spec.clamp01
            (match Spec.anomaly_output B self X with
             | Some (Some s) =>
                 (0.5 * default 0.5 (Spec.classifier_output self X) + 0.5 * s)%float
             | Some None | None => default 0.5%float (Spec.classifier_output self X)
             end)).
Proof.
  intros H. unfold Agent.score. rewrite H. unfold_res.
  rewrite classifier_probability_eq, anomaly_blend_eq, min_max_clamp.
  reflexivity.
Qed.

(** C1, as stated, fails: the agent that starts without a stored model has
    an anomaly detector, yet its score is the classifier default 0.5 alone:
    the detector raises, no raw anomaly score exists, and nothing is
    blended.  And for an artifact whose classifier answers NaN the clamp
    returns NaN, which is not in the unit interval. *)
Lemma blend_counterexample :
  Agent.score Sample.builtins 0 Sample.degraded_agent ∅ = Ok 0.5%float
  /\ iso (Agent.model Sample.degraded_agent) = Some IsolationForest
  /\ ~ (exists B now, Spec.score_as_stated B now Sample.degraded_agent ∅)
  /\ Agent.score Sample.builtins 0 Sample.nan_agent ∅ = Ok nan
  /\ ~ in_unit_interval nan
  /\ ~ (exists B now, Spec.score_as_stated B now Sample.nan_agent ∅).
Proof.
  split; [reflexivity | split; [reflexivity | split]].
  { intros (B & now & X & cols & p & r & _ & _ & _ & _ & H).
    simpl in H. destruct H as (v & raw & s & Hcall & _). discriminate Hcall. }
  split; [reflexivity | split].
  { intros [H _]. discriminate H. }
  intros (B & now & X & cols & p & r & HF & _ & HS & HI & _).
  assert (HN : Agent.score B now Sample.nan_agent ∅ = Ok nan).
  { unfold Agent.score, Agent.features.
    rewrite agent_extract_eq. reflexivity. }
  rewrite HN in HS. injection HS as <-.
  destruct HI as [H _]. discriminate H.
Qed.

(** C1, amended. For every transaction whose features are extracted and
    scaled, and every artifact, [score] returns the clamp of [v], where [p]
    is the classifier probability (0.5 when there is no classifier method
    or it fails), [v = 0.5 * p + 0.5 * s] when an anomaly detector is
    present and yields a raw score whose negation squashes to
    [s = 1 / (1 + e^-x)], and [v = p] when there is no detector or its
    scoring fails; the returned risk lies in [0, 1] whenever [v] is a
    number. *)
Theorem score_blends_and_clamps
        (B : Builtins) (now : Z) (self : Agent.FraudDetectionAgent)
        (tx : gmap string pyval) (X : matrix) (cols : list string) :
  Agent.features B now self tx = Ok (X, cols) ->
  let p := default 0.5%float (Spec.classifier_output self X) in
  let v := match Spec.anomaly_output B self X with
           | Some (Some s) => (0.5 * p + 0.5 * s)%float
           | Some None | None => p
           end in
  Agent.score B now self tx = Ok (Spec.clamp01 v)
  /\ (is_number v -> in_unit_interval (Spec.clamp01 v)).
Proof.
  intros H p v. split.
  - apply (score_eq _ _ _ _ _ _ H).
  - apply clamp_range.
Qed.

Lemma score_blends_and_clamps_witness :
  Agent.features Sample.builtins 0 Sample.fitted_agent Sample.tx_timed
    = Ok ([[0; 22; 0; 0; 0; 0; 0]]%float, Spec.sorted_order)
  /\ (Agent.score Sample.builtins 0 Sample.fitted_agent Sample.tx_timed
        = Ok 0.375%float
      /\ (is_number 0.375 -> in_unit_interval 0.375)).
Proof.
  split; [reflexivity |].
  apply (score_blends_and_clamps Sample.builtins 0 Sample.fitted_agent
           Sample.tx_timed [[0; 22; 0; 0; 0; 0; 0]]%float Spec.sorted_order).
  reflexivity.
Defined.

(** ** Degraded mode *)

Lemma degraded_score
      (B : Builtins) (now : Z) (t : float) (tx : gmap string pyval)
      (feats : fdict) :
  Agent._extract_features B now tx = Ok feats ->
  Agent.score B now
    {| Agent.model := Agent.default_model; Agent.threshold := t |} tx
  = Ok 0.5%float.
Proof.
  intros H. unfold Agent.score, Agent.features. rewrite H.
  rewrite agent_extract_eq in H.
  destruct (int_floordiv_1000 _ _); [| discriminate].
  destruct (str_ _ _); [| discriminate].
  destruct (len _); [| discriminate].
  injection H as <-. reflexivity.
Qed.

Lemma degraded_level (t : float) :
  Agent.classify
    {| Agent.model := Agent.default_model; Agent.threshold := t |} 0.5
  = if (t <=? 0.5)%float then "high" else "medium".
Proof. rewrite classify_cases. reflexivity. Qed.

(** C4, as stated, fails: a failed load does return defaults without
    raising, but the defaults hold an anomaly detector (an isolation forest
    that was never fitted), and their classifier answers no constant: it
    raises, and the 0.5 comes from the handler in [score]. *)
Lemma neutral_default_counterexample :
  Agent.load ∅ Sample.model_path = Ok Agent.default_model
  /\ iso Agent.default_model = Some IsolationForest
  /\ call (predict_proba LogisticRegression) [[0; 0; 0; 0; 0; 0; 0]]%float
     = Raise NotFittedError
  /\ ~ Spec.neutral_as_stated Agent.default_model.
Proof.
  split; [reflexivity | split; [reflexivity | split; [reflexivity |]]].
  intros (_ & H & _). discriminate H.
Qed.

(** C4, amended. If reading the artifact fails (no file, a corrupt file, or
    a stored object that is not exactly the three fields), [load] does not
    raise but returns the defaults: no scaler, a logistic regression and an
    isolation forest, neither fitted.  Scoring any transaction whose
    features are extracted with these defaults returns the pair
    [{risk, level}] with risk 0.5 (both sub-scores raise and are caught),
    the level being medium when the threshold exceeds 0.5 and high
    otherwise. *)
Theorem degraded_mode_continuity
        (fs : filesystem) (path : string) (e : exn)
        (B : Builtins) (now : Z) (t : float)
        (outbox : list Agent.alert_message)
        (tx : gmap string pyval) (feats : fdict) :
  (obj ← joblib_load fs path; FraudModel_kwargs obj) = Raise e ->
  Agent._extract_features B now tx = Ok feats ->
  let self := {| Agent.model := Agent.default_model; Agent.threshold := t |} in
  Agent.init fs path t = Ok self
  /\ scaler Agent.default_model = None
  /\ clf Agent.default_model = Some LogisticRegression
  /\ iso Agent.default_model = Some IsolationForest
  /\ Agent.score B now self tx = Ok 0.5%float
  /\ Agent.process_tx B now self outbox tx
     = Ok ({| Agent.risk := 0.5;
              Agent.level := if (t <=? 0.5)%float then "high" else "medium" |},
           if (t <=? 0.5)%float
           then Agent.alert outbox tx 0.5 "high"
           else outbox).
Proof.
  intros Hload Hfeat self.
  split.
  { unfold Agent.init. rewrite (load_failure _ _ _ Hload). reflexivity. }
  do 3 (split; [reflexivity |]).
  pose proof (degraded_score B now t tx feats Hfeat) as Hs. fold self in Hs.
  split; [exact Hs |].
  unfold Agent.process_tx. rewrite Hs. unfold_res.
  unfold self. rewrite degraded_level.
  destruct (t <=? 0.5)%float; reflexivity.
Qed.

Lemma degraded_mode_continuity_witness :
  (obj ← joblib_load ∅ Sample.model_path; FraudModel_kwargs obj) = Raise IOError
  /\ (Agent.init ∅ Sample.model_path Agent.RISK_THRESHOLD
        = Ok Sample.degraded_agent
      /\ scaler Agent.default_model = None
      /\ clf Agent.default_model = Some LogisticRegression
      /\ iso Agent.default_model = Some IsolationForest
      /\ Agent.score Sample.builtins 0 Sample.degraded_agent Sample.tx_timed
         = Ok 0.5%float
      /\ Agent.process_tx Sample.builtins 0 Sample.degraded_agent []
           Sample.tx_timed
         = Ok ({| Agent.risk := 0.5; Agent.level := "medium" |}, [])).
Proof.
  split; [reflexivity |].
  apply (degraded_mode_continuity ∅ Sample.model_path IOError
           Sample.builtins 0 Agent.RISK_THRESHOLD [] Sample.tx_timed
           [ ("amount", 0%float); ("hour", 22%float); ("is_retry", 0%float);
             ("memo_len", 0%float); ("st_success", 0%float);
             ("st_failed", 0%float); ("st_queued", 0%float) ]);
    reflexivity.
Defined.

(** ** The trainer *)



(** ** End to end *)

(** The transaction [{amount: 10_000_000_000, status: "queued",
    retry: true, memo: ""}] against the defaults, at threshold 0.7: risk
    0.5, severity medium, no alert. *)
Example end_to_end_default :
  Agent.process_tx Sample.builtins 0 Sample.degraded_agent []
    {[ "amount" := PInt 10000000000; "status" := PStr "queued";
       "retry" := PBool true; "memo" := PStr "" ]}
  = Ok ({| Agent.risk := 0.5; Agent.level := "medium" |}, []).
Proof. reflexivity. Qed.

(** The same transaction, extracted at midnight. *)
Example end_to_end_features :
  Agent._extract_features Sample.builtins 0
    {[ "amount" := PInt 10000000000; "status" := PStr "queued";
       "retry" := PBool true; "memo" := PStr "" ]}
  = Ok [ ("amount", 10000000000%float); ("hour", 0%float);
         ("is_retry", 1%float); ("memo_len", 0%float);
         ("st_success", 0%float); ("st_failed", 0%float);
         ("st_queued", 1%float) ].
Proof. reflexivity. Qed.

(** * Further properties of the code *)

(** ** The extractor *)

Lemma get_insert_eq (tx : gmap string pyval) (k : string) (v dflt : pyval) :
  get (<[k := v]> tx) k dflt = v.
Proof. unfold get. rewrite lookup_insert_eq. reflexivity. Qed.

Lemma get_insert_ne (tx : gmap string pyval) (k k' : string) (v dflt : pyval) :
  k <> k' -> get (<[k := v]> tx) k' dflt = get tx k' dflt.
Proof. intros H. unfold get. rewrite lookup_insert_ne by exact H. reflexivity. Qed.

(** X1. Whatever the record, a vector that either extractor returns has an
    hour that is a whole number from 0 to 23, a memo length that is a
    natural number, and retry and status entries that are 0 or 1. *)
Theorem feature_ranges
        (B : Builtins) (now : Z) (tx : gmap string pyval) (feats : fdict) :
  Agent._extract_features B now tx = Ok feats
  \/ Mirror._extract_features B now tx = Ok feats ->
  (exists h : Z, 0 <= h <= 23 /\ getitem feats "hour" = Ok (Z_to_float h))
  /\ (exists n : nat, getitem feats "memo_len" = Ok (Z_to_float (Z.of_nat n)))
  /\ (forall key,
        In key ["is_retry"; "st_success"; "st_failed"; "st_queued"] ->
        exists b : bool, getitem feats key = Ok (if b then 1 else 0)%float).
Proof.
  rewrite agent_extract_eq, mirror_extract_eq.
  destruct (int_floordiv_1000 _ _) as [secs |]; [| intros [H | H]; discriminate].
  destruct (str_ _ _) as [text |]; [| intros [H | H]; discriminate].
  destruct (len _) as [n |]; [| intros [H | H]; discriminate].
  intros [[= <-] | [= <-]];
    (split; [exists ((secs mod 86400) / 3600);
             split; [apply hour_bounds | reflexivity] |];
     split; [exists n; reflexivity |];
     simpl; intros key [<- | [<- | [<- | [<- | []]]]];
     eexists; reflexivity).
Qed.

Lemma feature_ranges_witness :
  (exists h : Z, 0 <= h <= 23
     /\ getitem [ ("amount", 0%float); ("hour", 22%float); ("is_retry", 1%float);
                  ("memo_len", 0%float); ("st_success", 0%float);
                  ("st_failed", 0%float); ("st_queued", 0%float) ] "hour"
        = Ok (Z_to_float h))
  /\ (exists n : nat,
        getitem [ ("amount", 0%float); ("hour", 22%float); ("is_retry", 1%float);
                  ("memo_len", 0%float); ("st_success", 0%float);
                  ("st_failed", 0%float); ("st_queued", 0%float) ] "memo_len"
        = Ok (Z_to_float (Z.of_nat n)))
  /\ (forall key,
        In key ["is_retry"; "st_success"; "st_failed"; "st_queued"] ->
        exists b : bool,
          getitem [ ("amount", 0%float); ("hour", 22%float); ("is_retry", 1%float);
                    ("memo_len", 0%float); ("st_success", 0%float);
                    ("st_failed", 0%float); ("st_queued", 0%float) ] key
          = Ok (if b then 1 else 0)%float).
Proof.
  apply (feature_ranges Sample.builtins 0 Sample.tx_retry_false).
  left. reflexivity.
Defined.

(** X2. For a record whose timestamp is absent, falsy, an [int] or a
    [bool], what decides whether the extractors return is the status and
    the memo.  A status that has no text (an [int] of more than 4300 digits,
    or a container whose conversion raises) makes both raise the error of
    the conversion.  Otherwise both return exactly when the memo is absent,
    falsy, a text, a list or a dict, and raise [TypeError] when it is not.
    The amount and retry fields never decide it. *)
Theorem extraction_succeeds_iff_memo_sized
        (B : Builtins) (now : Z) (tx : gmap string pyval) :
  Shape.plain_ts (get tx "ts" PNone) = true ->
  match str_ B (get tx "status" (PStr "")) with
  | Raise e =>
      Agent._extract_features B now tx = Raise e
      /\ Mirror._extract_features B now tx = Raise e
  | Ok _ =>
      if Shape.sized_memo (get tx "memo" PNone)
      then exists fa fm,
             Agent._extract_features B now tx = Ok fa
             /\ Mirror._extract_features B now tx = Ok fm
      else Agent._extract_features B now tx = Raise TypeError
           /\ Mirror._extract_features B now tx = Raise TypeError
  end.
Proof.
  intros Hts. rewrite agent_extract_eq, mirror_extract_eq.
  assert (Hs : exists s,
             int_floordiv_1000 B (or_else (get tx "ts" PNone) (PInt now)) = Ok s).
  { unfold or_else. destruct (truthy (get tx "ts" PNone)) eqn:Et.
    - destruct (get tx "ts" PNone); simpl in *; try discriminate Et;
        try (rewrite Et in Hts; discriminate Hts); eexists; reflexivity.
    - eexists; reflexivity. }
  destruct Hs as [s ->].
  destruct (str_ B (get tx "status" (PStr ""))) as [text | e];
    [| split; reflexivity].
  unfold or_else.
  destruct (get tx "memo" PNone) as [| b | n | f | t | l | d]; simpl.
  - eauto.
  - destruct b; simpl; eauto.
  - destruct (n =? 0); simpl; eauto.
  - destruct (f =? 0)%float; simpl; eauto.
  - destruct (String.eqb t ""); simpl; eauto.
  - destruct l; simpl; eauto.
  - destruct d; simpl; eauto.
Qed.

Lemma extraction_succeeds_iff_memo_sized_witness :
  Agent._extract_features Sample.builtins 0 Sample.tx_memo_5 = Raise TypeError
  /\ Mirror._extract_features Sample.builtins 0 Sample.tx_memo_5 = Raise TypeError.
Proof.
  apply (extraction_succeeds_iff_memo_sized Sample.builtins 0 Sample.tx_memo_5).
  reflexivity.
Defined.

(** A status that is an integer of 4301 digits has no text: both
    extractors raise [ValueError]; with 4300 digits they return. *)
Example oversized_status_raises :
  Agent._extract_features Sample.builtins 0 {[ "status" := PInt (10 ^ 4300) ]}
    = Raise ValueError
  /\ Mirror._extract_features Sample.builtins 0
       {[ "status" := PInt (- 10 ^ 4300) ]}
     = Raise ValueError
  /\ Agent._extract_features Sample.builtins 0
       {[ "status" := PInt (10 ^ 4300 - 1) ]}
     = Ok [ ("amount", 0%float); ("hour", 0%float); ("is_retry", 0%float);
            ("memo_len", 0%float); ("st_success", 0%float);
            ("st_failed", 0%float); ("st_queued", 0%float) ].
Proof. vm_compute. repeat split; reflexivity. Qed.

Lemma hour_of_later_day (n k : Z) :
  (((n + 86400000 * k) / 1000) mod 86400) / 3600 = ((n / 1000) mod 86400) / 3600.
Proof.
  replace (n + 86400000 * k) with (n + (86400 * k) * 1000) by lia.
  rewrite Z.div_add by lia.
  replace (n / 1000 + 86400 * k) with (n / 1000 + k * 86400) by lia.
  rewrite Z.mod_add by lia. reflexivity.
Qed.

(** X3. The hour depends on an integer timestamp only through its time of
    day: moving a non-zero timestamp by whole days (to another non-zero
    timestamp) changes nothing in what either extractor returns. *)
Theorem timestamp_day_periodic
        (B : Builtins) (now : Z) (tx : gmap string pyval) (n k : Z) :
  n <> 0 ->
  n + 86400000 * k <> 0 ->
  Agent._extract_features B now (<["ts" := PInt (n + 86400000 * k)]> tx)
    = Agent._extract_features B now (<["ts" := PInt n]> tx)
  /\ Mirror._extract_features B now (<["ts" := PInt (n + 86400000 * k)]> tx)
    = Mirror._extract_features B now (<["ts" := PInt n]> tx).
Proof.
  intros Hn Hk.
  assert (T : forall m, m <> 0 ->
            or_else (get (<["ts" := PInt m]> tx) "ts" PNone) (PInt now) = PInt m).
  { intros m Hm. rewrite get_insert_eq. unfold or_else. simpl.
    destruct (m =? 0) eqn:E; [apply Z.eqb_eq in E; contradiction | reflexivity]. }
  unfold Agent._extract_features, Mirror._extract_features.
  rewrite (T _ Hn), (T _ Hk).
  rewrite !get_insert_ne by discriminate.
  cbn [int_floordiv_1000]. unfold_res.
  rewrite hour_of_later_day. split; reflexivity.
Qed.

Lemma timestamp_day_periodic_witness :
  Agent._extract_features Sample.builtins 0
      (<["ts" := PInt (1700000000000 + 86400000 * (-19000))]> ∅)
    = Agent._extract_features Sample.builtins 0 (<["ts" := PInt 1700000000000]> ∅)
  /\ Mirror._extract_features Sample.builtins 0
      (<["ts" := PInt (1700000000000 + 86400000 * (-19000))]> ∅)
    = Mirror._extract_features Sample.builtins 0 (<["ts" := PInt 1700000000000]> ∅).
Proof.
  apply (timestamp_day_periodic Sample.builtins 0 ∅ 1700000000000 (-19000)); lia.
Defined.

(** X4. The extractors read five fields only: setting any other key of the
    record changes nothing in what they return. *)
Theorem other_keys_ignored
        (B : Builtins) (now : Z) (tx : gmap string pyval)
        (key : string) (v : pyval) :
  ~ In key Shape.read_keys ->
  Agent._extract_features B now (<[key := v]> tx)
    = Agent._extract_features B now tx
  /\ Mirror._extract_features B now (<[key := v]> tx)
    = Mirror._extract_features B now tx.
Proof.
  intros H. simpl in H.
  unfold Agent._extract_features, Mirror._extract_features.
  rewrite !get_insert_ne by (intros ->; tauto).
  split; reflexivity.
Qed.

Lemma other_keys_ignored_witness :
  Agent._extract_features Sample.builtins 0 (<["label" := PInt 1]> Sample.tx_timed)
    = Agent._extract_features Sample.builtins 0 Sample.tx_timed
  /\ Mirror._extract_features Sample.builtins 0 (<["label" := PInt 1]> Sample.tx_timed)
    = Mirror._extract_features Sample.builtins 0 Sample.tx_timed.
Proof.
  apply (other_keys_ignored Sample.builtins 0 Sample.tx_timed "label" (PInt 1)).
  simpl. intros [H | [H | [H | [H | [H | []]]]]]; discriminate H.
Defined.

Lemma lower_char_idempotent (c : ascii) :
  lower_char (lower_char c) = lower_char c.
Proof.
  destruct c as [[] [] [] [] [] [] [] []]; reflexivity.
Qed.

Lemma lower_idempotent (s : string) : lower (lower s) = lower s.
Proof.
  induction s as [| c s IH]; [reflexivity |].
  simpl. rewrite lower_char_idempotent, IH. reflexivity.
Qed.

(** X5. The status flags do not see the case of the status text: a record
    with status [s] and the record with its lower-cased status extract to
    the same vector, in both modules. *)
Theorem status_case_insensitive
        (B : Builtins) (now : Z) (tx : gmap string pyval) (s : string) :
  Agent._extract_features B now (<["status" := PStr s]> tx)
    = Agent._extract_features B now (<["status" := PStr (lower s)]> tx)
  /\ Mirror._extract_features B now (<["status" := PStr s]> tx)
    = Mirror._extract_features B now (<["status" := PStr (lower s)]> tx).
Proof.
  unfold Agent._extract_features, Mirror._extract_features.
  rewrite !get_insert_eq, !get_insert_ne by discriminate.
  cbn [str_ mbind res_bind bind]. rewrite lower_idempotent. split; reflexivity.
Qed.

(** ** Severity and alerts *)

(** X6. Severity never decreases with risk: for a fixed threshold, a risk
    that is at least another risk gets a level at least as severe
    (low, medium, high, critical in this order). *)
Theorem classify_monotone
        (self : Agent.FraudDetectionAgent) (p q : float) :
  (p <=? q)%float = true ->
  (Severity.rank (Agent.classify self p)
   <= Severity.rank (Agent.classify self q))%nat.
Proof.
  intros Hpq.
  assert (A : forall c, (c <=? p)%float = true -> (c <=? q)%float = true)
    by (intros c Hc; apply (leb_trans _ _ _ Hc Hpq)).
  pose proof (A (Agent.threshold self)) as At.
  pose proof (A 0.9%float) as A9.
  pose proof (A 0.4%float) as A4.
  rewrite !classify_cases.
  destruct (Agent.threshold self <=? p)%float, (0.9 <=? p)%float,
           (0.4 <=? p)%float, (Agent.threshold self <=? q)%float,
           (0.9 <=? q)%float, (0.4 <=? q)%float;
    try discriminate (At eq_refl);
    try discriminate (A9 eq_refl);
    try discriminate (A4 eq_refl);
    cbv [Severity.rank]; simpl; lia.
Qed.

Lemma classify_monotone_witness :
  (Severity.rank (Agent.classify Sample.degraded_agent 0.5)
   <= Severity.rank (Agent.classify Sample.degraded_agent 0.75))%nat.
Proof.
  apply (classify_monotone Sample.degraded_agent 0.5 0.75). reflexivity.
Defined.

(** X7. Raising the configured threshold never raises a severity: for a
    fixed risk, the agent with the larger threshold answers a level at most
    as severe. *)
Theorem classify_threshold_antitone
        (self self' : Agent.FraudDetectionAgent) (p : float) :
  (Agent.threshold self <=? Agent.threshold self')%float = true ->
  (Severity.rank (Agent.classify self' p)
   <= Severity.rank (Agent.classify self p))%nat.
Proof.
  intros Htt.
  rewrite !classify_cases.
  destruct (Agent.threshold self' <=? p)%float eqn:Et'.
  - rewrite (leb_trans _ _ _ Htt Et'). lia.
  - destruct (Agent.threshold self <=? p)%float;
      destruct (0.9 <=? p)%float; destruct (0.4 <=? p)%float;
      cbv [Severity.rank]; simpl; lia.
Qed.

Lemma classify_threshold_antitone_witness :
  (Severity.rank
     (Agent.classify {| Agent.model := Agent.default_model;
                        Agent.threshold := 0.8 |} 0.75)
   <= Severity.rank (Agent.classify Sample.degraded_agent 0.75))%nat.
Proof.
  apply (classify_threshold_antitone Sample.degraded_agent
           {| Agent.model := Agent.default_model; Agent.threshold := 0.8 |} 0.75).
  reflexivity.
Defined.

(** X8. [process_tx] raises an alert exactly when the risk reaches the
    threshold: the outbox then gains one message carrying the transaction,
    the returned risk and the returned level (high or critical); below the
    threshold (or with a NaN on either side) the outbox is untouched. *)
Theorem alert_iff_risk_reaches_threshold
        (B : Builtins) (now : Z) (self : Agent.FraudDetectionAgent)
        (outbox : list Agent.alert_message) (tx : gmap string pyval)
        (out : Agent.assessment) (alerts : list Agent.alert_message) :
  Agent.process_tx B now self outbox tx = Ok (out, alerts) ->
  Agent.score B now self tx = Ok (Agent.risk out)
  /\ Agent.level out = Agent.classify self (Agent.risk out)
  /\ alerts =
       if (Agent.threshold self <=? Agent.risk out)%float
       then (outbox ++ [ {| Agent.alert_tx := tx;
                            Agent.alert_risk := Agent.risk out;
                            Agent.alert_level := Agent.level out |} ])%list
       else outbox.
Proof.
  unfold Agent.process_tx. unfold_res. intros H. case_res H.
  injection H as <- <-. simpl.
  split; [reflexivity | split; [reflexivity |]].
  rewrite classify_cases.
  destruct (Agent.threshold self <=? a)%float;
    destruct (0.9 <=? a)%float; destruct (0.4 <=? a)%float; reflexivity.
Qed.

Lemma alert_iff_risk_reaches_threshold_witness :
  Agent.score Sample.builtins 0
      {| Agent.model := Agent.default_model; Agent.threshold := 0.5 |}
      Sample.tx_timed
    = Ok 0.5%float
  /\ "high" = Agent.classify
                {| Agent.model := Agent.default_model; Agent.threshold := 0.5 |} 0.5
  /\ [ {| Agent.alert_tx := Sample.tx_timed;
          Agent.alert_risk := 0.5;
          Agent.alert_level := "high" |} ]
     = ([] ++ [ {| Agent.alert_tx := Sample.tx_timed;
                   Agent.alert_risk := 0.5;
                   Agent.alert_level := "high" |} ])%list.
Proof.
  apply (alert_iff_risk_reaches_threshold Sample.builtins 0
           {| Agent.model := Agent.default_model; Agent.threshold := 0.5 |}
           [] Sample.tx_timed
           {| Agent.risk := 0.5; Agent.level := "high" |}).
  reflexivity.
Defined.

(** ** Loading and saving artifacts *)

Set Warnings "-clear-no-such-hyp".

Lemma field_names_size :
  size ({[ "scaler"; "clf"; "iso" ]} : gset string) = 3%nat.
Proof.
  rewrite !size_union, !size_singleton; [reflexivity | set_solver | set_solver].
Qed.

Lemma kwargs_accepts (d : gmap string (option estimator)) :
  dom d = ({[ "scaler"; "clf"; "iso" ]} : gset string) ->
  exists s c i,
    d !! "scaler" = Some s /\ d !! "clf" = Some c /\ d !! "iso" = Some i
    /\ FraudModel_kwargs (PkDict d) = Ok {| scaler := s; clf := c; iso := i |}.
Proof.
  intros Hdom.
  assert (Hs : is_Some (d !! "scaler")) by (apply elem_of_dom; set_solver).
  assert (Hc : is_Some (d !! "clf")) by (apply elem_of_dom; set_solver).
  assert (Hi : is_Some (d !! "iso")) by (apply elem_of_dom; set_solver).
  destruct Hs as [s Hs], Hc as [c Hc], Hi as [i Hi].
  exists s, c, i. repeat split; try assumption.
  unfold FraudModel_kwargs. rewrite Hs, Hc, Hi.
  rewrite <- (size_dom d), Hdom, field_names_size. reflexivity.
Qed.

Lemma kwargs_rejects (d : gmap string (option estimator)) :
  dom d <> ({[ "scaler"; "clf"; "iso" ]} : gset string) ->
  FraudModel_kwargs (PkDict d) = Raise TypeError.
Proof.
  intros Hdom. unfold FraudModel_kwargs.
  destruct (d !! "scaler") as [s |] eqn:Hs; [| reflexivity].
  destruct (d !! "clf") as [c |] eqn:Hc; [| reflexivity].
  destruct (d !! "iso") as [i |] eqn:Hi; [| reflexivity].
  destruct (size d =? 3)%nat eqn:E; [| reflexivity].
  exfalso. apply Hdom. symmetry. apply set_subseteq_size_eq.
  - intros k Hk. apply elem_of_dom.
    assert (k = "scaler" \/ k = "clf" \/ k = "iso") as [-> | [-> | ->]]
      by set_solver; eauto.
  - rewrite size_dom, field_names_size. apply Nat.eqb_eq in E. lia.
Qed.

(** X9. [load] never raises, and it is strict about the stored object: a
    stored dict whose keys are exactly [scaler], [clf] and [iso] is
    returned field by field, and anything else (no file, a corrupt file,
    another object, a dict with a missing or an additional key) silently
    yields the defaults, in both modules. *)
Theorem load_accepts_exactly_three_fields (fs : filesystem) (path : string) :
  (forall d,
     fs !! path = Some (Pickled (PkDict d)) ->
     dom d = ({[ "scaler"; "clf"; "iso" ]} : gset string) ->
     exists s c i,
       d !! "scaler" = Some s /\ d !! "clf" = Some c /\ d !! "iso" = Some i
       /\ Agent.load fs path = Ok {| scaler := s; clf := c; iso := i |}
       /\ Mirror.load fs path = Ok {| scaler := s; clf := c; iso := i |})
  /\ ((forall d,
         fs !! path = Some (Pickled (PkDict d)) ->
         dom d <> ({[ "scaler"; "clf"; "iso" ]} : gset string)) ->
      Agent.load fs path = Ok Agent.default_model
      /\ Mirror.load fs path = Ok Mirror.default_model).
Proof.
  split.
  - intros d Hf Hdom.
    destruct (kwargs_accepts d Hdom) as (s & c & i & Hs & Hc & Hi & Hk).
    exists s, c, i. repeat split; try assumption;
      unfold Agent.load, Mirror.load, joblib_load; rewrite Hf; unfold_res;
      rewrite Hk; reflexivity.
  - intros Hno. unfold Agent.load, Mirror.load, joblib_load.
    destruct (fs !! path) as [[| [d |]] |] eqn:Hf; try (split; reflexivity).
    unfold_res. rewrite (kwargs_rejects d (Hno d eq_refl)). split; reflexivity.
Qed.

Lemma load_accepts_exactly_three_fields_witness :
  Agent.load
      (<[Sample.model_path :=
           Pickled (PkDict (<["featureOrder" := None]>
                              (dump_fields Sample.three_column_model)))]> ∅)
      Sample.model_path
    = Ok Agent.default_model
  /\ Mirror.load
      (<[Sample.model_path :=
           Pickled (PkDict (<["featureOrder" := None]>
                              (dump_fields Sample.three_column_model)))]> ∅)
      Sample.model_path
    = Ok Mirror.default_model.
Proof.
  apply (load_accepts_exactly_three_fields
           (<[Sample.model_path :=
                Pickled (PkDict (<["featureOrder" := None]>
                                   (dump_fields Sample.three_column_model)))]> ∅)
           Sample.model_path).
  intros d Hd. unfold filesystem in Hd.
  rewrite lookup_insert_eq in Hd. injection Hd as <-.
  rewrite dom_insert_L, dump_fields_dom. intros H.
  assert (Hin : "featureOrder" ∈ ({[ "scaler"; "clf"; "iso" ]} : gset string))
    by (rewrite <- H; set_solver).
  set_solver.
Defined.

(** The slash test, character by character. *)
Lemma prefix_slash (c : ascii) (s : string) :
  String.prefix "/" (String c s) = Ascii.eqb "/" c.
Proof.
  change (String.prefix "/" (String c s))
    with (match ascii_dec "/" c with
          | left _ => String.prefix "" s
          | right _ => false
          end).
  destruct (ascii_dec "/" c) as [<- | Hne].
  - destruct s; reflexivity.
  - symmetry. apply Ascii.eqb_neq. exact Hne.
Qed.

Lemma contains_slash (s : string) :
  contains "/" s = existsb (Ascii.eqb "/") (list_ascii_of_string s).
Proof.
  induction s as [| c s IH]; [reflexivity |].
  change (contains "/" (String c s))
    with (String.prefix "/" (String c s) || contains "/" s).
  change (existsb (Ascii.eqb "/") (list_ascii_of_string (String c s)))
    with (Ascii.eqb "/" c || existsb (Ascii.eqb "/") (list_ascii_of_string s)).
  rewrite prefix_slash, IH. reflexivity.
Qed.

Lemma contains_slash_app (a b : string) :
  contains "/" (a ++ b) = contains "/" a || contains "/" b.
Proof.
  rewrite !contains_slash.
  induction a as [| c a IH]; simpl; [reflexivity |].
  rewrite IH. apply orb_assoc.
Qed.

Lemma head_to_last_slash_empty (p : string) :
  Paths.head_to_last_slash p = "" <-> contains "/" p = false.
Proof.
  induction p as [| c p IH]; [simpl; tauto |].
  change (contains "/" (String c p))
    with (String.prefix "/" (String c p) || contains "/" p).
  change (Paths.head_to_last_slash (String c p))
    with (if contains "/" p then String c (Paths.head_to_last_slash p)
          else if Ascii.eqb c "/" then "/" else "").
  rewrite prefix_slash, (Ascii.eqb_sym "/" c).
  destruct (contains "/" p).
  - rewrite orb_true_r. split; discriminate.
  - rewrite orb_false_r.
    destruct (Ascii.eqb c "/"); split; try discriminate; reflexivity.
Qed.

Lemma rstrip_slash_empty (s : string) :
  Paths.rstrip_slash s = "" -> Paths.all_slashes s = true.
Proof.
  unfold Paths.all_slashes.
  induction s as [| c s IH]; simpl; [reflexivity |].
  destruct (Ascii.eqb c "/") eqn:Ec; simpl.
  - destruct (String.eqb (Paths.rstrip_slash s) "") eqn:Er; [| discriminate].
    apply String.eqb_eq in Er. intros _.
    apply Ascii.eqb_eq in Ec. subst c. simpl. apply IH, Er.
  - discriminate.
Qed.

Lemma dirname_empty (p : string) :
  Paths.dirname p = "" <-> contains "/" p = false.
Proof.
  rewrite <- head_to_last_slash_empty. unfold Paths.dirname.
  destruct (String.eqb (Paths.head_to_last_slash p) "") eqn:Eh; simpl.
  - tauto.
  - destruct (Paths.all_slashes (Paths.head_to_last_slash p)) eqn:Ea; simpl.
    + tauto.
    + split.
      * intros H. apply rstrip_slash_empty in H. congruence.
      * intros H. rewrite H in Eh. discriminate Eh.
Qed.

Lemma ends_with_slash_contains (s : string) :
  Paths.ends_with_slash s = true -> contains "/" s = true.
Proof.
  rewrite contains_slash.
  induction s as [| c s IH]; [discriminate |].
  simpl. destruct s as [| c' s'].
  - intros H. apply Ascii.eqb_eq in H. subst c. reflexivity.
  - intros H. rewrite (IH H). apply orb_true_r.
Qed.






(** ** The trainer's feature matrix *)

(** X11. What [featurize] returns has one matrix row and one label per row
    of the data set, in the same order: row [j] holds the seven features
    that the mirror's extractor gives for data row [j] (at the time of its
    turn), in sorted key order, and label [j] is [int] of the row's [label]
    field, 0 when the field is missing. *)
Theorem featurize_row_by_row
        (B : Builtins) (clock : nat -> Z) (df : list Trainer.row)
        (X : matrix) (y : list Z) (cols : list string) :
  Trainer.featurize B clock df = Ok (X, y, cols) ->
  length X = length df
  /\ length y = length df
  /\ forall j r, df !! j = Some r ->
       exists f row l,
         Mirror._extract_features B (clock j) r = Ok f
         /\ row_of f Spec.sorted_order = Ok row
         /\ length row = 7%nat
         /\ X !! j = Some row
         /\ int_ B (get r "label" (PInt 0)) = Ok l
         /\ y !! j = Some l.
Proof.
  intros H.
  assert (Hcols : df <> [] -> cols = Spec.sorted_order)
    by (intros Hne; apply (featurize_cols _ _ _ _ _ _ Hne H)).
  unfold Trainer.featurize in H. unfold_res. case_res H.
  destruct a as [feats labels]. case_res H. injection H as <- <- Hc.
  destruct (featurize_rows_spec _ _ _ _ _ _ E) as (Hf & Hl & Hrows).
  destruct (rows_of_spec _ _ _ E0) as (HX & HXrows).
  split; [congruence | split; [exact Hl |]].
  intros j r Hj.
  destruct (Hrows j r Hj) as (f & l & H1 & H2 & H3 & H4).
  destruct (HXrows j f H3) as (row & Hrow & HXj).
  assert (Hne : df <> []) by (intros ->; discriminate Hj).
  rewrite Hc, (Hcols Hne) in Hrow.
  exists f, row, l. repeat split; try assumption.
  apply (row_of_length _ _ _ Hrow).
Qed.

Lemma featurize_row_by_row_witness :
  length [[0; 22; 0; 0; 0; 0; 0]]%float = length [Sample.tx_timed]
  /\ length [0] = length [Sample.tx_timed]
  /\ forall j r, [Sample.tx_timed] !! j = Some r ->
       exists f row l,
         Mirror._extract_features Sample.builtins 0 r = Ok f
         /\ row_of f Spec.sorted_order = Ok row
         /\ length row = 7%nat
         /\ [[0; 22; 0; 0; 0; 0; 0]]%float !! j = Some row
         /\ int_ Sample.builtins (get r "label" (PInt 0)) = Ok l
         /\ [0] !! j = Some l.
Proof.
  apply (featurize_row_by_row Sample.builtins (fun _ => 0) [Sample.tx_timed]
           [[0; 22; 0; 0; 0; 0; 0]]%float [0] Spec.sorted_order).
  reflexivity.
Defined.

Lemma featurize_rows_first_failure
      (B : Builtins) (clock : nat -> Z) (r : Trainer.row)
      (post : list Trainer.row) (e : exn) (pre : list Trainer.row) :
  forall i : nat,
    (forall j r', pre !! j = Some r' ->
       (exists f, Mirror._extract_features B (clock (i + j)%nat) r' = Ok f)
       /\ (exists l, int_ B (get r' "label" (PInt 0)) = Ok l)) ->
    Mirror._extract_features B (clock (i + length pre)%nat) r = Raise e ->
    Trainer.featurize_rows B clock i (pre ++ r :: post) = Raise e.
Proof.
  induction pre as [| r0 pre IH]; intros i Hpre Hr; simpl.
  - simpl in Hr. rewrite Nat.add_0_r in Hr. rewrite Hr. reflexivity.
  - destruct (Hpre 0%nat r0 eq_refl) as [[f Hf] [l Hl]].
    rewrite Nat.add_0_r in Hf. rewrite Hf. unfold_res. rewrite Hl.
    rewrite IH; [reflexivity | |].
    + intros j r' Hj. specialize (Hpre (S j) r' Hj).
      rewrite Nat.add_succ_r in Hpre. exact Hpre.
    + simpl in Hr. rewrite Nat.add_succ_r in Hr. exact Hr.
Qed.

(** X12. One bad row aborts the whole featurization: when the rows before
    row [r] all extract and have an integer label, and the extractor raises
    on [r] (for instance on the NaN memo of an empty CSV cell), [featurize]
    raises that same exception, whatever follows. *)
Theorem featurize_fails_on_first_bad_row
        (B : Builtins) (clock : nat -> Z) (pre : list Trainer.row)
        (r : Trainer.row) (post : list Trainer.row) (e : exn) :
  (forall j r', pre !! j = Some r' ->
     (exists f, Mirror._extract_features B (clock j) r' = Ok f)
     /\ (exists l, int_ B (get r' "label" (PInt 0)) = Ok l)) ->
  Mirror._extract_features B (clock (length pre)) r = Raise e ->
  Trainer.featurize B clock (pre ++ r :: post) = Raise e.
Proof.
  intros Hpre Hr. unfold Trainer.featurize.
  rewrite (featurize_rows_first_failure B clock r post e pre 0%nat);
    [reflexivity | exact Hpre | exact Hr].
Qed.

Lemma featurize_fails_on_first_bad_row_witness :
  Trainer.featurize Sample.builtins (fun _ => 0)
    ([Sample.tx_timed] ++ Sample.tx_memo_nan :: [Sample.tx_timed])
  = Raise TypeError.
Proof.
  apply (featurize_fails_on_first_bad_row Sample.builtins (fun _ => 0)
           [Sample.tx_timed] Sample.tx_memo_nan [Sample.tx_timed] TypeError).
  - intros [| j] r' Hj; simpl in Hj; [| discriminate Hj].
    injection Hj as <-. split; eexists; reflexivity.
  - reflexivity.
Defined.

(** ** The training script *)

Ltac case_run H :=
  match type of H with
  | context [ run ?m _ ] =>
      let E := fresh "E" in
      destruct m eqn:E; unfold run at 1 in H; [| discriminate H]
  end.

(** X13. With an output path that has no directory part (as in
    [--out model.joblib]) the training script never ends normally: whatever
    the data and the fitted model, the directory creation raises and no
    artifact is written. *)
Theorem main_without_directory_never_returns
        (B : Builtins) (L : Trainer.Library) (clock : nat -> Z)
        (fs : filesystem) (data out : string) :
  contains "/" out = false ->
  ~ (exists result, Trainer.main B L clock fs data out = Returned result).
Proof.
  intros Hout [result H]. unfold Trainer.main in H.
  case_run H. case_run H. destruct a0 as [[X y] cols].
  destruct (length X =? 0)%nat; [discriminate H |].
  case_run H. destruct a0 as [[[X_tr X_te] y_tr] y_te].
  case_run H. case_run H.
  unfold makedirs_dirname in H. rewrite Hout in H. discriminate H.
Qed.

Lemma main_without_directory_never_returns_witness :
  ~ (exists result,
       Trainer.main Sample.builtins TrainingSample.library (fun _ => 0) ∅
         "data.csv" "model.joblib" = Returned result).
Proof.
  apply (main_without_directory_never_returns Sample.builtins
           TrainingSample.library (fun _ => 0) ∅ "data.csv" "model.joblib").
  reflexivity.
Defined.

(** X14. When the training script ends normally, the data set had at least
    one row, the printed path is the output path, every other file is
    untouched, and the scorer's [load] on the output path returns the
    trained artifact: a scaler, a classifier and an anomaly detector, all
    present. *)
Theorem main_result_loads
        (B : Builtins) (L : Trainer.Library) (clock : nat -> Z)
        (fs fs' : filesystem) (data out : string)
        (m : Trainer.metrics) (printed_path : string) :
  Trainer.main B L clock fs data out = Returned (fs', (m, printed_path)) ->
  printed_path = out
  /\ (exists df, Trainer.load_dataset L data = Ok df /\ df <> [])
  /\ (exists sc c d,
        Agent.load fs' out
          = Ok {| scaler := Some sc; clf := Some c; iso := Some d |})
  /\ (forall other, other <> out -> fs' !! other = fs !! other).
Proof.
  intros H. unfold Trainer.main in H.
  case_run H. case_run H. destruct a0 as [[X y] cols].
  destruct (length X =? 0)%nat eqn:EX; [discriminate H |].
  case_run H. destruct a0 as [[[X_tr X_te] y_tr] y_te].
  case_run H. case_run H. case_run H. case_run H.
  injection H as <- <- <-.
  split; [reflexivity | split; [| split]].
  - exists a. split; [reflexivity |]. intros ->.
    simpl in E0. injection E0 as <- _ _. discriminate EX.
  - unfold Trainer.train in E2. unfold_res.
    case_res E2. destruct a4 as [sc Xs]. case_res E2. case_res E2.
    injection E2 as <-. exists sc, a4, a5.
    apply (load_stored _ _ _ (save_stores _ _ _ _ E5)).
  - intros other Hne. unfold Mirror.save in E5. unfold_res.
    case_res E5. case_res E5.
    injection E5 as <-. unfold filesystem in *.
    rewrite lookup_insert_ne by congruence. reflexivity.
Qed.

Lemma main_result_loads_witness :
  Trainer.main Sample.builtins TrainingSample.library (fun _ => 0) ∅
      "data.csv" Sample.model_path
    = Returned (<[Sample.model_path :=
                    Pickled (PkDict (dump_fields TrainingSample.model))]> ∅,
                ({| Trainer.auc := 0.5; Trainer.report := PDict [] |},
                 Sample.model_path))
  /\ (Sample.model_path = Sample.model_path
      /\ (exists df,
            Trainer.load_dataset TrainingSample.library "data.csv" = Ok df
            /\ df <> [])
      /\ (exists sc c d,
            Agent.load
              (<[Sample.model_path :=
                   Pickled (PkDict (dump_fields TrainingSample.model))]> ∅)
              Sample.model_path
            = Ok {| scaler := Some sc; clf := Some c; iso := Some d |})
      /\ (forall other, other <> Sample.model_path ->
            (<[Sample.model_path :=
                 Pickled (PkDict (dump_fields TrainingSample.model))]>
               (∅ : filesystem)) !! other
            = (∅ : filesystem) !! other)).
Proof.
  split; [reflexivity |].
  apply (main_result_loads Sample.builtins TrainingSample.library (fun _ => 0)
           ∅ _ "data.csv" Sample.model_path
           {| Trainer.auc := 0.5; Trainer.report := PDict [] |}).
  reflexivity.
Defined.

(** ** The feedback store *)

Lemma all_printable_app (a b : string) :
  Json.all_printable (a ++ b) = Json.all_printable a && Json.all_printable b.
Proof.
  unfold Json.all_printable.
  induction a as [| c a IH]; simpl; [reflexivity |].
  rewrite IH. apply andb_assoc.
Qed.

Lemma escape_char_printable (c : ascii) :
  Json.all_printable (Json.escape_char c) = true.
Proof.
  destruct c as [[] [] [] [] [] [] [] []]; reflexivity.
Qed.

Lemma escape_printable (s : string) :
  Json.all_printable (Json.escape s) = true.
Proof.
  induction s as [| c s IH]; simpl; [reflexivity |].
  rewrite all_printable_app, escape_char_printable, IH. reflexivity.
Qed.

Lemma dumps_str_printable (s : string) :
  Json.all_printable (Json.dumps_str s) = true.
Proof.
  unfold Json.dumps_str.
  change (String "034" (Json.escape s ++ String "034" ""))
    with (String "034" "" ++ (Json.escape s ++ String "034" "")).
  rewrite !all_printable_app, escape_printable. reflexivity.
Qed.

Lemma string_of_uint_printable (d : Decimal.uint) :
  Json.all_printable (NilEmpty.string_of_uint d) = true.
Proof.
  induction d; simpl; try reflexivity; exact IHd.
Qed.

Lemma dumps_int_printable (n : Z) (digits : string) :
  Json.dumps_int n = Ok digits -> Json.all_printable digits = true.
Proof.
  unfold Json.dumps_int, int_to_str.
  destruct (Z.abs n <? 10 ^ int_max_str_digits); [| discriminate].
  intros [= <-]. unfold NilEmpty.string_of_int.
  destruct (Z.to_int n); [| simpl]; apply string_of_uint_printable.
Qed.

Lemma dumps_feedback_printable (tx_id : string) (label : Z) (record : string) :
  Json.dumps_feedback tx_id label = Ok record ->
  Json.all_printable record = true.
Proof.
  unfold Json.dumps_feedback. unfold_res.
  destruct (Json.dumps_int label) as [digits | e] eqn:E; [| discriminate].
  intros [= <-].
  rewrite !all_printable_app, !dumps_str_printable, (dumps_int_printable _ _ E).
  reflexivity.
Qed.

(** The encoder refuses exactly the labels of more than 4300 digits. *)
Lemma dumps_feedback_limit (tx_id : string) (label : Z) :
  (exists record, Json.dumps_feedback tx_id label = Ok record)
  <-> Z.abs label < 10 ^ int_max_str_digits.
Proof.
  unfold Json.dumps_feedback, Json.dumps_int, int_to_str. unfold_res.
  destruct (Z.abs label <? 10 ^ int_max_str_digits) eqn:E.
  - apply Z.ltb_lt in E. split; [intros _; exact E | eauto].
  - apply Z.ltb_ge in E. split; [intros [r H]; discriminate H | lia].
Qed.

(** The feedback file sits in a directory exactly when the model does. *)
Lemma feedback_path_slash (model_path : string) :
  contains "/" (Paths.join (Paths.dirname model_path) "feedback.jsonl")
  = contains "/" model_path.
Proof.
  unfold Paths.join. simpl String.prefix.
  destruct (String.eqb (Paths.dirname model_path) "") eqn:Ed; simpl.
  - apply String.eqb_eq in Ed. rewrite Ed. simpl.
    symmetry. apply dirname_empty, Ed.
  - assert (Hs : contains "/" model_path = true).
    { destruct (contains "/" model_path) eqn:E; [reflexivity |].
      apply dirname_empty in E. rewrite E in Ed. discriminate Ed. }
    rewrite Hs.
    destruct (Paths.ends_with_slash (Paths.dirname model_path)) eqn:Ee.
    + rewrite contains_slash_app, (ends_with_slash_contains _ Ee). reflexivity.
    + rewrite !contains_slash_app. simpl. apply orb_true_r.
Qed.

(** X15. [feedback] only ever appends: every other file is untouched, and
    the feedback file keeps its previous content as a prefix.  A successful
    call adds exactly one line, the JSON record followed by a line feed,
    and that record is made of printable ASCII characters only, so it
    cannot span lines whatever the transaction id holds; a failed call adds
    nothing. *)
Theorem feedback_appends_one_line
        (B : Builtins) (model_path : string) (files : AgentIO.textfs)
        (tx_id : string) (label : pyval) :
  let path := Paths.join (Paths.dirname model_path) "feedback.jsonl" in
  let files' := fst (AgentIO.feedback B model_path files tx_id label) in
  (forall other, other <> path -> files' !! other = files !! other)
  /\ match snd (AgentIO.feedback B model_path files tx_id label) with
     | Ok _ =>
         exists n record,
           int_ B label = Ok n
           /\ Json.dumps_feedback tx_id n = Ok record
           /\ Json.all_printable record = true
           /\ files' !! path
              = Some (default "" (files !! path) ++ record ++ String "010" "")
     | Raise _ => default "" (files' !! path) = default "" (files !! path)
     end.
Proof.
  intros path files'. subst files'. unfold AgentIO.feedback. fold path.
  unfold AgentIO.textfs in *. unfold_res.
  destruct (makedirs_dirname path); simpl; [| split; reflexivity].
  destruct (open_for_writing path); simpl; [| split; reflexivity].
  destruct (int_ B label) as [n | e]; simpl.
  - destruct (Json.dumps_feedback tx_id n) as [record | e] eqn:Er; simpl.
    + split.
      * intros other H. rewrite lookup_insert_ne by congruence. reflexivity.
      * exists n, record. split; [reflexivity | split; [exact Er |]].
        split; [apply (dumps_feedback_printable _ _ _ Er) |
                apply lookup_insert_eq].
    + split.
      * intros other H. rewrite lookup_insert_ne by congruence. reflexivity.
      * rewrite lookup_insert_eq. reflexivity.
  - split.
    + intros other H. rewrite lookup_insert_ne by congruence. reflexivity.
    + rewrite lookup_insert_eq. reflexivity.
Qed.

(** X16. [feedback] succeeds only when the model path has a directory part
    and the label converts to an integer of at most 4300 digits (a longer
    one has no JSON text); with a bare file name as model path it raises
    before touching any file. *)
Theorem feedback_success_conditions
        (B : Builtins) (model_path : string) (files : AgentIO.textfs)
        (tx_id : string) (label : pyval) :
  (snd (AgentIO.feedback B model_path files tx_id label) = Ok tt ->
   contains "/" model_path = true
   /\ exists n, int_ B label = Ok n /\ Z.abs n < 10 ^ int_max_str_digits)
  /\ (contains "/" model_path = false ->
      AgentIO.feedback B model_path files tx_id label = (files, Raise IOError)).
Proof.
  unfold AgentIO.feedback, makedirs_dirname.
  rewrite feedback_path_slash. unfold_res.
  destruct (contains "/" model_path); simpl.
  - split; [| discriminate].
    destruct (Paths.has_nul _); simpl; [discriminate |].
    destruct (open_for_writing _); simpl; [| discriminate].
    destruct (int_ B label) as [n | e]; simpl; [| discriminate].
    destruct (Json.dumps_feedback tx_id n) as [record | e] eqn:Er; simpl;
      [| discriminate].
    intros _. split; [reflexivity |]. exists n. split; [reflexivity |].
    apply (dumps_feedback_limit tx_id n). eauto.
  - split; [discriminate | reflexivity].
Qed.

(** A bare file name as model path, and the label [True]. *)
Lemma feedback_success_conditions_witness :
  AgentIO.feedback Sample.builtins "fraud_model.joblib" ∅ "tx-1" (PBool true)
    = (∅, Raise IOError)
  /\ (contains "/" Sample.model_path = true
      /\ exists n, int_ Sample.builtins (PBool true) = Ok n
                   /\ Z.abs n < 10 ^ int_max_str_digits).
Proof.
  split.
  - apply (feedback_success_conditions Sample.builtins "fraud_model.joblib"
             ∅ "tx-1" (PBool true)).
    reflexivity.
  - apply (feedback_success_conditions Sample.builtins Sample.model_path
             ∅ "tx-1" (PBool true)).
    reflexivity.
Defined.

Example feedback_line :
  AgentIO.feedback Sample.builtins Sample.model_path
    {[ "models/feedback.jsonl" := "{}" ++ String "010" "" ]}
    (String "034" "a") (PBool true)
  = ({[ "models/feedback.jsonl" :=
          "{}" ++ String "010" ""
          ++ "{" ++ String "034" "txId" ++ String "034" ": "
          ++ String "034" "\" ++ String "034" "a" ++ String "034" ", "
          ++ String "034" "label" ++ String "034" ": 1}" ++ String "010" "" ]},
     Ok tt).
Proof. reflexivity. Qed.

(** ** The listening loop *)

Section Listening.

Variable B : Builtins.
Variable R : AgentIO.Runtime.
Variable clock : nat -> Z.
Variable self : Agent.FraudDetectionAgent.

Lemma handle_skipped (now : Z) (st : AgentIO.state) (raw : string) :
  Message.skipped R raw = true ->
  AgentIO.handle_message B R now self st raw = (st, None).
Proof.
  unfold Message.skipped, AgentIO.handle_message.
  destruct (AgentIO.json_loads R raw) as [msg |]; [| reflexivity].
  destruct (AgentIO.as_object msg) as [m |]; [| discriminate].
  destruct (AgentIO.as_object (get m "payload" PNone)); [| reflexivity].
  destruct (truthy (get m "event" PNone)); simpl; [| reflexivity].
  destruct (get m "event" PNone); try discriminate.
  destruct (String.prefix "payment:" s); [discriminate | reflexivity].
Qed.

Lemma handle_not_an_object (now : Z) (st : AgentIO.state) (raw : string) :
  Message.not_an_object R raw = true ->
  AgentIO.handle_message B R now self st raw = (st, Some AttributeError).
Proof.
  unfold Message.not_an_object, AgentIO.handle_message.
  destruct (AgentIO.json_loads R raw) as [msg |]; [| discriminate].
  destruct (AgentIO.as_object msg); [discriminate | reflexivity].
Qed.

Lemma handle_payment (now : Z) (st : AgentIO.state) (raw : string)
      (tx : gmap string pyval) :
  Message.payment R raw = Some tx ->
  AgentIO.handle_message B R now self st raw
  = match Agent.process_tx B now self (AgentIO.outbox st) tx with
    | Ok (out, alerts) =>
        ({| AgentIO.outbox := alerts;
            AgentIO.scored :=
              AgentIO.scored st ++
                [ {| AgentIO.scored_risk := AgentIO.round3 R (Agent.risk out);
                     AgentIO.scored_level := Agent.level out |} ] |},
         None)
    | Raise e => (st, Some e)
    end.
Proof.
  unfold Message.payment, AgentIO.handle_message.
  destruct (AgentIO.json_loads R raw) as [msg |]; [| discriminate]. simpl.
  destruct (AgentIO.as_object msg) as [m |]; [| discriminate]. simpl.
  destruct (AgentIO.as_object (get m "payload" PNone)) as [p |];
    [| discriminate]. simpl.
  destruct (get m "event" PNone) as [| | | | name | |] eqn:Ev; try discriminate.
  destruct (String.prefix "payment:" name) eqn:Ep; [| discriminate].
  intros [= ->]. simpl.
  destruct name as [| c name]; [discriminate Ep |]. reflexivity.
Qed.

Lemma listen_loop_app (m1 m2 : list string) :
  forall (i : nat) (st : AgentIO.state),
    AgentIO.listen_loop B R clock self i st (m1 ++ m2)
    = match AgentIO.listen_loop B R clock self i st m1 with
      | (st', AgentIO.ConnectionClosed) =>
          AgentIO.listen_loop B R clock self (i + length m1) st' m2
      | other => other
      end.
Proof.
  induction m1 as [| raw m1 IH]; intros i st; simpl.
  - rewrite Nat.add_0_r. reflexivity.
  - destruct (AgentIO.handle_message B R (clock i) self st raw) as [st' [e |]].
    + reflexivity.
    + rewrite IH, Nat.add_succ_r. reflexivity.
Qed.

Lemma listen_loop_skipped (skips : list string) :
  forall (i : nat) (st : AgentIO.state),
    Forall (fun raw => Message.skipped R raw = true) skips ->
    AgentIO.listen_loop B R clock self i st skips
    = (st, AgentIO.ConnectionClosed).
Proof.
  induction skips as [| raw skips IH]; intros i st H; [reflexivity |].
  inversion H as [| ? ? Hraw Hrest]; subst. simpl.
  rewrite (handle_skipped _ _ _ Hraw). apply IH, Hrest.
Qed.

End Listening.

(** X17. Messages that do not decode, and decoded objects that are no
    payment event (no object payload, a falsy event, an event with another
    prefix), are passed over: any number of them in front of the remaining
    messages changes neither the alerts nor the log, only the turn at which
    the rest is handled. *)
Theorem skipped_messages_change_nothing
        (B : Builtins) (R : AgentIO.Runtime) (clock : nat -> Z)
        (self : Agent.FraudDetectionAgent) (i : nat) (st : AgentIO.state)
        (skips rest : list string) :
  Forall (fun raw => Message.skipped R raw = true) skips ->
  AgentIO.listen_loop B R clock self i st (skips ++ rest)
  = AgentIO.listen_loop B R clock self (i + length skips) st rest.
Proof.
  intros H. rewrite listen_loop_app, (listen_loop_skipped _ _ _ _ _ _ _ H).
  reflexivity.
Qed.

Lemma skipped_messages_change_nothing_witness :
  AgentIO.listen_loop Sample.builtins Message.runtime (fun _ => 0)
    Sample.degraded_agent 0 AgentIO.initial
    (["not json"; ""] ++ [Message.payment_new])
  = AgentIO.listen_loop Sample.builtins Message.runtime (fun _ => 0)
      Sample.degraded_agent (0 + length ["not json"; ""]) AgentIO.initial
      [Message.payment_new].
Proof.
  apply (skipped_messages_change_nothing Sample.builtins Message.runtime
           (fun _ => 0) Sample.degraded_agent 0 AgentIO.initial
           ["not json"; ""] [Message.payment_new]).
  repeat constructor.
Defined.

(** The scenario of a feed that delivers a text that is no JSON and then a
    payment: the first is passed over and the second is scored. *)
Example streaming_scenario :
  AgentIO.listen_ws true Sample.builtins Message.runtime (fun _ => 0)
    Sample.degraded_agent ["not json"; Message.payment_new]
  = ({| AgentIO.outbox := [];
        AgentIO.scored := [ {| AgentIO.scored_risk := 0.5;
                               AgentIO.scored_level := "medium" |} ] |},
     AgentIO.ConnectionClosed).
Proof. reflexivity. Qed.

Lemma process_tx_outbox
      (B : Builtins) (now : Z) (self : Agent.FraudDetectionAgent)
      (outbox : list Agent.alert_message) (tx : gmap string pyval)
      (out : Agent.assessment) (alerts : list Agent.alert_message) :
  Agent.process_tx B now self outbox tx = Ok (out, alerts) ->
  exists new, alerts = (outbox ++ new)%list /\ (length new <= 1)%nat.
Proof.
  unfold Agent.process_tx. unfold_res. intros H. case_res H.
  injection H as _ <-.
  destruct (String.eqb _ "high" || String.eqb _ "critical").
  - eexists. split; [reflexivity | simpl; lia].
  - exists []. split; [symmetry; apply app_nil_r | simpl; lia].
Qed.

Lemma handle_message_grows
      (B : Builtins) (R : AgentIO.Runtime) (now : Z)
      (self : Agent.FraudDetectionAgent) (st st' : AgentIO.state)
      (raw : string) (e : option exn) :
  AgentIO.handle_message B R now self st raw = (st', e) ->
  exists alerts log,
    AgentIO.outbox st' = (AgentIO.outbox st ++ alerts)%list
    /\ AgentIO.scored st' = (AgentIO.scored st ++ log)%list
    /\ (length alerts <= length log <= 1)%nat
    /\ (e <> None -> st' = st).
Proof.
  assert (Same : forall e0, (st, e0) = (st', e) ->
            exists alerts log,
              AgentIO.outbox st' = (AgentIO.outbox st ++ alerts)%list
              /\ AgentIO.scored st' = (AgentIO.scored st ++ log)%list
              /\ (length alerts <= length log <= 1)%nat
              /\ (e <> None -> st' = st)).
  { intros e0 [= <- <-]. exists [], [].
    rewrite !app_nil_r. repeat split; simpl; lia. }
  unfold AgentIO.handle_message.
  destruct (AgentIO.json_loads R raw) as [msg |]; [| apply Same].
  destruct (AgentIO.as_object msg) as [m |]; [| apply Same].
  destruct (AgentIO.as_object (get m "payload" PNone)) as [tx |]; [| apply Same].
  destruct (negb (truthy (get m "event" PNone))); [apply Same |].
  destruct (get m "event" PNone); try apply Same.
  destruct (String.prefix "payment:" s); [| apply Same].
  destruct (Agent.process_tx B now self (AgentIO.outbox st) tx)
    as [[out alerts] | err] eqn:E; [| apply Same].
  intros [= <- <-]. simpl.
  destruct (process_tx_outbox _ _ _ _ _ _ _ E) as (new & -> & Hnew).
  exists new. eexists. repeat split; simpl; try lia. congruence.
Qed.

(** X18. The loop never drops or rewrites what it has already done: after
    any run the alerts raised before and the log written before are still
    there, in front of what the run added; the run logs at most one record
    per message and raises at most one alert per logged record. *)
Theorem listen_loop_only_appends
        (B : Builtins) (R : AgentIO.Runtime) (clock : nat -> Z)
        (self : Agent.FraudDetectionAgent) (msgs : list string) :
  forall (i : nat) (st : AgentIO.state),
    exists alerts log,
      AgentIO.outbox (fst (AgentIO.listen_loop B R clock self i st msgs))
        = (AgentIO.outbox st ++ alerts)%list
      /\ AgentIO.scored (fst (AgentIO.listen_loop B R clock self i st msgs))
        = (AgentIO.scored st ++ log)%list
      /\ (length alerts <= length log <= length msgs)%nat.
Proof.
  induction msgs as [| raw msgs IH]; intros i st; simpl.
  - exists [], []. rewrite !app_nil_r. repeat split; simpl; lia.
  - destruct (AgentIO.handle_message B R (clock i) self st raw)
      as [st' e] eqn:E.
    destruct (handle_message_grows _ _ _ _ _ _ _ _ E)
      as (a1 & l1 & Ha1 & Hl1 & Hlen1 & _).
    destruct e as [e |]; simpl.
    + exists a1, l1. repeat split; try assumption; lia.
    + destruct (IH (S i) st') as (a2 & l2 & Ha2 & Hl2 & Hlen2).
      exists (a1 ++ a2)%list, (l1 ++ l2)%list.
      rewrite Ha2, Hl2, Ha1, Hl1, <- !app_assoc, !length_app.
      repeat split; lia.
Qed.

(** X19. A turn that raises ends the loop there: a message that decodes to
    something other than an object ends it with [AttributeError], and a
    payment whose transaction [process_tx] cannot handle ends it with the
    exception of [process_tx]; in both cases the state is left as it was
    and the remaining messages are never read. *)
Theorem listen_loop_stops_at_first_error
        (B : Builtins) (R : AgentIO.Runtime) (clock : nat -> Z)
        (self : Agent.FraudDetectionAgent) (i : nat) (st : AgentIO.state)
        (raw : string) (rest : list string) :
  (Message.not_an_object R raw = true ->
   AgentIO.listen_loop B R clock self i st (raw :: rest)
   = (st, AgentIO.Crashed AttributeError))
  /\ (forall tx e,
        Message.payment R raw = Some tx ->
        Agent.process_tx B (clock i) self (AgentIO.outbox st) tx = Raise e ->
        AgentIO.listen_loop B R clock self i st (raw :: rest)
        = (st, AgentIO.Crashed e)).
Proof.
  split.
  - intros H. simpl. rewrite (handle_not_an_object _ _ _ _ _ _ H). reflexivity.
  - intros tx e Hp He. simpl.
    rewrite (handle_payment _ _ _ _ _ _ _ Hp), He. reflexivity.
Qed.

Lemma listen_loop_stops_at_first_error_witness :
  AgentIO.listen_loop Sample.builtins Message.runtime (fun _ => 0)
    Sample.degraded_agent 0 AgentIO.initial ["5"; Message.payment_new]
  = (AgentIO.initial, AgentIO.Crashed AttributeError).
Proof.
  apply (listen_loop_stops_at_first_error Sample.builtins Message.runtime
           (fun _ => 0) Sample.degraded_agent 0 AgentIO.initial
           "5" [Message.payment_new]).
  reflexivity.
Defined.

(** ** The scorer's script *)

(** X20. In score mode with a transaction text that decodes to an object
    whose features are extracted, and no usable model file, the script
    prints risk 0.5 with the level of the given threshold (high when the
    threshold is at most 0.5, medium otherwise); without a transaction
    text, or with an empty one, it exits with the [--tx] message. *)
Theorem main_score_mode_degraded
        (websockets : bool) (B : Builtins) (R : AgentIO.Runtime)
        (clock : nat -> Z) (fs : filesystem) (model_path : string)
        (t : float) (text : string) (v : pyval)
        (tx : gmap string pyval) (feats : fdict) (e : exn)
        (msgs : list string) :
  (obj ← joblib_load fs model_path; FraudModel_kwargs obj) = Raise e ->
  text <> "" ->
  AgentIO.json_loads R text = Some v ->
  AgentIO.as_object v = Some tx ->
  Agent._extract_features B (clock 0%nat) tx = Ok feats ->
  AgentIO.main websockets B R clock fs model_path
    {| AgentIO.arg_mode := AgentIO.Score;
       AgentIO.arg_tx := Some text;
       AgentIO.arg_threshold := t |} msgs
  = AgentIO.Printed
      {| Agent.risk := 0.5;
         Agent.level := if (t <=? 0.5)%float then "high" else "medium" |}
      (if (t <=? 0.5)%float then Agent.alert [] tx 0.5 "high" else [])
  /\ AgentIO.main websockets B R clock fs model_path
       {| AgentIO.arg_mode := AgentIO.Score;
          AgentIO.arg_tx := None;
          AgentIO.arg_threshold := t |} msgs
     = AgentIO.SystemExit "--tx required in score mode"
  /\ AgentIO.main websockets B R clock fs model_path
       {| AgentIO.arg_mode := AgentIO.Score;
          AgentIO.arg_tx := Some "";
          AgentIO.arg_threshold := t |} msgs
     = AgentIO.SystemExit "--tx required in score mode".
Proof.
  intros Hload Htext Hv Htx Hfeat.
  unfold AgentIO.main, Agent.init. rewrite (load_failure _ _ _ Hload).
  unfold_res. simpl.
  split; [| split; reflexivity].
  destruct (String.eqb text "") eqn:Et;
    [apply String.eqb_eq in Et; contradiction |].
  rewrite Hv, Htx.
  unfold Agent.process_tx. rewrite (degraded_score _ _ _ _ _ Hfeat).
  unfold_res. rewrite degraded_level.
  destruct (t <=? 0.5)%float; reflexivity.
Qed.

Lemma main_score_mode_degraded_witness :
  AgentIO.main true Sample.builtins Message.runtime (fun _ => 0) ∅
    Sample.model_path
    {| AgentIO.arg_mode := AgentIO.Score;
       AgentIO.arg_tx := Some Message.payment_new;
       AgentIO.arg_threshold := Agent.RISK_THRESHOLD |} []
  = AgentIO.Printed {| Agent.risk := 0.5; Agent.level := "medium" |} []
  /\ AgentIO.main true Sample.builtins Message.runtime (fun _ => 0) ∅
       Sample.model_path
       {| AgentIO.arg_mode := AgentIO.Score;
          AgentIO.arg_tx := None;
          AgentIO.arg_threshold := Agent.RISK_THRESHOLD |} []
     = AgentIO.SystemExit "--tx required in score mode"
  /\ AgentIO.main true Sample.builtins Message.runtime (fun _ => 0) ∅
       Sample.model_path
       {| AgentIO.arg_mode := AgentIO.Score;
          AgentIO.arg_tx := Some "";
          AgentIO.arg_threshold := Agent.RISK_THRESHOLD |} []
     = AgentIO.SystemExit "--tx required in score mode".
Proof.
  apply (main_score_mode_degraded true Sample.builtins Message.runtime
           (fun _ => 0) ∅ Sample.model_path Agent.RISK_THRESHOLD
           Message.payment_new
           (PDict [ ("event", PStr "payment:new");
                    ("payload", PDict [ ("amount", PInt 1500000);
                                        ("status", PStr "success") ]) ])
           (list_to_map
              (reverse [ ("event", PStr "payment:new");
                         ("payload", PDict [ ("amount", PInt 1500000);
                                             ("status", PStr "success") ]) ]))
           [ ("amount", 0%float); ("hour", 0%float); ("is_retry", 0%float);
             ("memo_len", 0%float); ("st_success", 0%float);
             ("st_failed", 0%float); ("st_queued", 0%float) ]
           IOError []).
  - reflexivity.
  - discriminate.
  - reflexivity.
  - reflexivity.
  - reflexivity.
Defined.

(** ** Where scoring can fail *)

Lemma extracted_row
      (B : Builtins) (now : Z) (tx : gmap string pyval) (feats : fdict) :
  Agent._extract_features B now tx = Ok feats ->
  keys feats = Spec.listed_order
  /\ exists row, row_of feats Spec.sorted_order = Ok row.
Proof.
  intros H. split; [apply (agent_extract_keys _ _ _ _ H) |].
  rewrite agent_extract_eq in H.
  destruct (int_floordiv_1000 _ _); [| discriminate].
  destruct (str_ _ _); [| discriminate].
  destruct (len _); [| discriminate].
  injection H as <-. eexists. reflexivity.
Qed.

(** X21. Nothing the classifier or the anomaly detector does can make
    [score] raise: [score] raises exactly when [features] does, and once
    the transaction's features are extracted, [features] raises exactly
    when the artifact has a scaler whose [transform] raises on (or is
    missing for) the one-row matrix of the seven sorted features. *)
Theorem scoring_fails_only_in_features
        (B : Builtins) (now : Z) (self : Agent.FraudDetectionAgent)
        (tx : gmap string pyval) (feats : fdict) :
  Agent._extract_features B now tx = Ok feats ->
  (forall e, Agent.score B now self tx = Raise e
             <-> Agent.features B now self tx = Raise e)
  /\ exists row,
       row_of feats Spec.sorted_order = Ok row
       /\ forall e,
            Agent.features B now self tx = Raise e
            <-> exists sc, scaler (Agent.model self) = Some sc
                           /\ call (transform sc) [row] = Raise e.
Proof.
  intros H. split.
  - intros e. destruct (Agent.features B now self tx) as [[X cols] | e'] eqn:E.
    + rewrite (score_eq _ _ _ _ _ _ E). split; discriminate.
    + unfold Agent.score. rewrite E. unfold_res.
      split; intros [= ->]; reflexivity.
  - destruct (extracted_row _ _ _ _ H) as [Hk [row Hrow]].
    exists row. split; [exact Hrow |]. intros e.
    unfold Agent.features. rewrite H. unfold_res.
    rewrite Hk, sorted_listed_order, Hrow.
    destruct (scaler (Agent.model self)) as [sc |].
    + destruct (call (transform sc) [row]) as [X' | e'] eqn:Ec; split.
      * discriminate.
      * intros (sc' & [= <-] & Hc). rewrite Ec in Hc. discriminate Hc.
      * intros [= ->]. eauto.
      * intros (sc' & [= <-] & Hc). rewrite Ec in Hc.
        injection Hc as ->. reflexivity.
    + split; [discriminate | intros (sc' & Hsc & _); discriminate Hsc].
Qed.

Lemma scoring_fails_only_in_features_witness :
  (forall e,
     Agent.score Sample.builtins 0
       {| Agent.model := Sample.three_column_model;
          Agent.threshold := Agent.RISK_THRESHOLD |} ∅ = Raise e
     <-> Agent.features Sample.builtins 0
           {| Agent.model := Sample.three_column_model;
              Agent.threshold := Agent.RISK_THRESHOLD |} ∅ = Raise e)
  /\ exists row,
       row_of [ ("amount", 0%float); ("hour", 0%float); ("is_retry", 0%float);
                ("memo_len", 0%float); ("st_success", 0%float);
                ("st_failed", 0%float); ("st_queued", 0%float) ]
              Spec.sorted_order = Ok row
       /\ forall e,
            Agent.features Sample.builtins 0
              {| Agent.model := Sample.three_column_model;
                 Agent.threshold := Agent.RISK_THRESHOLD |} ∅ = Raise e
            <-> exists sc,
                  Some Sample.three_column_scaler = Some sc
                  /\ call (transform sc) [row] = Raise e.
Proof.
  apply (scoring_fails_only_in_features Sample.builtins 0
           {| Agent.model := Sample.three_column_model;
              Agent.threshold := Agent.RISK_THRESHOLD |} ∅).
  reflexivity.
Defined.

(** X22. Two bands can be empty: with a threshold of 0.9 or more no risk
    is classified high (whatever reaches the threshold is critical), and
    with a threshold of 0.4 or less no risk is classified medium (whatever
    reaches 0.4 has reached the threshold). *)
Theorem classify_empty_bands
        (self : Agent.FraudDetectionAgent) (p : float) :
  ((0.9 <=? Agent.threshold self)%float = true ->
   Agent.classify self p <> "high")
  /\ ((Agent.threshold self <=? 0.4)%float = true ->
      Agent.classify self p <> "medium").
Proof.
  rewrite classify_cases. split; intros Ht.
  - destruct (Agent.threshold self <=? p)%float eqn:Etp.
    + rewrite (leb_trans _ _ _ Ht Etp). discriminate.
    + destruct (0.4 <=? p)%float; discriminate.
  - destruct (Agent.threshold self <=? p)%float eqn:Etp.
    + destruct (0.9 <=? p)%float; discriminate.
    + destruct (0.4 <=? p)%float eqn:E4; [| discriminate].
      rewrite (leb_trans _ _ _ Ht E4) in Etp. discriminate Etp.
Qed.

Lemma classify_empty_bands_witness :
  Agent.classify {| Agent.model := Agent.default_model;
                    Agent.threshold := 0.95 |} 0.96 <> "high"
  /\ Agent.classify {| Agent.model := Agent.default_model;
                       Agent.threshold := 0.25 |} 0.3 <> "medium".
Proof.
  split.
  - apply (classify_empty_bands
             {| Agent.model := Agent.default_model; Agent.threshold := 0.95 |}
             0.96).
    reflexivity.
  - apply (classify_empty_bands
             {| Agent.model := Agent.default_model; Agent.threshold := 0.25 |}
             0.3).
    reflexivity.
Defined.
